(** * The PCA widget of Orange (Orange/widgets/unsupervised/owpca.py)

    A shallow embedding of the component-selection logic of [OWPCA] and of
    its output assembly, with the properties of the widget stated and proved
    over it.  The widget is a Python object whose attributes are mutated by
    callbacks; it is modelled by a record of its attributes and a small
    state-and-exception monad in which every method is written statement by
    statement. *)

From Stdlib Require Import ZArith QArith Qround Lia Bool List.
From stdpp Require Import base option list strings gmap pretty.

Local Open Scope Z_scope.

(** ** Floating point values

    A [float64] is modelled by the value it denotes: a rational when it is
    finite, and the three special values of IEEE 754 otherwise.  Arithmetic
    on finite values is exact: rounding to 53 bits is not part of the model,
    and negative zero is identified with zero. *)

Inductive float64 : Type :=
| Fin (q : Q)
| PInf
| NInf
| NaN.

Definition of_int (z : Z) : float64 := Fin (inject_Z z).

(** [numpy.isfinite] on a float. *)
Definition isfinite (x : float64) : bool :=
  match x with Fin _ => true | _ => false end.

Definition isnan (x : float64) : bool :=
  match x with NaN => true | _ => false end.

(** [x + y]; the sum of two finite values is kept in lowest terms. *)
Definition fadd (x y : float64) : float64 :=
  match x, y with
  | NaN, _ | _, NaN => NaN
  | Fin a, Fin b => Fin (Qred (a + b))
  | PInf, NInf | NInf, PInf => NaN
  | PInf, _ | _, PInf => PInf
  | NInf, _ | _, NInf => NInf
  end.

Definition fneg (x : float64) : float64 :=
  match x with
  | Fin a => Fin (- a)
  | PInf => NInf
  | NInf => PInf
  | NaN => NaN
  end.

(** The product of an infinity by a finite value. *)
Definition inf_times (a : Q) : float64 :=
  match (a ?= 0)%Q with
  | Gt => PInf
  | Lt => NInf
  | Eq => NaN
  end.

(** [x * y] *)
Definition fmul (x y : float64) : float64 :=
  match x, y with
  | NaN, _ | _, NaN => NaN
  | Fin a, Fin b => Fin (a * b)
  | PInf, Fin a | Fin a, PInf => inf_times a
  | NInf, Fin a | Fin a, NInf => fneg (inf_times a)
  | PInf, PInf | NInf, NInf => PInf
  | PInf, NInf | NInf, PInf => NaN
  end.

(** [x / y] for a divisor that is a finite, non-zero float (the widget only
    divides by the literal [100.0]); any other divisor gives [NaN] here. *)
Definition fdiv (x y : float64) : float64 :=
  match y with
  | Fin b =>
      if Qeq_bool b 0 then NaN
      else match x with
           | Fin a => Fin (a / b)
           | PInf => inf_times b
           | NInf => fneg (inf_times b)
           | NaN => NaN
           end
  | _ => NaN
  end.

(** [x == y], [x != y], [x < y], [x <= y] with the IEEE treatment of NaN. *)
Definition feq (x y : float64) : bool :=
  match x, y with
  | Fin a, Fin b => Qeq_bool a b
  | PInf, PInf | NInf, NInf => true
  | _, _ => false
  end.

Definition fne (x y : float64) : bool := negb (feq x y).

Definition flt (x y : float64) : bool :=
  match x, y with
  | NaN, _ | _, NaN => false
  | Fin a, Fin b => negb (Qle_bool b a)
  | _, NInf | PInf, _ => false
  | NInf, _ | _, PInf => true
  end.

Definition fle (x y : float64) : bool :=
  match x, y with
  | NaN, _ | _, NaN => false
  | Fin a, Fin b => Qle_bool a b
  | NInf, _ | _, PInf => true
  | PInf, _ | _, NInf => false
  end.

(** [numpy.floor] *)
Definition floor (x : float64) : float64 :=
  match x with
  | Fin a => Fin (inject_Z (Qfloor a))
  | _ => x
  end.

(** Truncation toward zero, the rounding of Python's [int] on a float. *)
Definition Qtrunc (a : Q) : Z := Z.quot (Qnum a) (Z.pos (Qden a)).

(** ** Python exceptions and sequences *)

Inductive Exn : Type :=
| IndexError
| TypeError
| ValueError
| OverflowError
| AttributeError
| AssertionError
| ZeroDivisionError.

(** The position denoted by the index [i] in a sequence of length [n]:
    a negative index counts from the end; [None] when out of range. *)
Definition index_pos (n : nat) (i : Z) : option nat :=
  if (0 <=? i) && (i <? Z.of_nat n) then Some (Z.to_nat i)
  else if (- Z.of_nat n <=? i) && (i <? 0) then Some (Z.to_nat (Z.of_nat n + i))
  else None.

(** [a[i]] *)
Definition getitem {A} (a : list A) (i : Z) : option A :=
  match index_pos (length a) i with
  | Some k => a !! k
  | None => None
  end.

(** [a[:n]] *)
Definition slice_to {A} (a : list A) (n : Z) : list A :=
  if 0 <=? n then take (Z.to_nat n) a
  else take (Z.to_nat (Z.of_nat (length a) + n)) a.

(** [range(n)] *)
Definition range (n : Z) : list Z := Z.of_nat <$> seq 0 (Z.to_nat n).

(** [numpy.cumsum]: the running sums, accumulated from left to right. *)
Fixpoint cumsum_from (acc : float64) (a : list float64) : list float64 :=
  match a with
  | [] => []
  | x :: r => let acc' := fadd acc x in acc' :: cumsum_from acc' r
  end.

Definition cumsum (a : list float64) : list float64 :=
  match a with
  | [] => []
  | x :: r => x :: cumsum_from x r
  end.

(** The order numpy sorts and searches floats by: NaN is placed last. *)
Definition np_less (x y : float64) : bool :=
  flt x y || (isnan y && negb (isnan x)).

(** The loop of [numpy.searchsorted] (side "left") for one key: a binary
    search between [lo] and [hi].  The recursion is on [fuel]; the interval
    halves at every step, so its length is enough fuel. *)
Fixpoint binsearch (fuel : nat) (a : list float64) (key : float64)
    (lo hi : nat) : nat :=
  match fuel with
  | O => lo
  | S fuel' =>
      if (lo <? hi)%nat then
        let mid := (lo + (hi - lo) / 2)%nat in
        match a !! mid with
        | Some x =>
            if np_less x key then binsearch fuel' a key (S mid) hi
            else binsearch fuel' a key lo mid
        | None => lo
        end
      else lo
  end.

Definition searchsorted (a : list float64) (key : float64) : Z :=
  Z.of_nat (binsearch (length a) a key 0 (length a)).

(** ** Tables, domains and the decomposition provider

    [Orange.data] and [Orange.projection] are used by the widget and are not
    part of the file; only what the widget touches is modelled. *)

Inductive OrangeVariable : Type :=
| ContinuousVariable (name : string)
| DiscreteVariable (name : string)
| StringVariable (name : string).

Definition name (v : OrangeVariable) : string :=
  match v with
  | ContinuousVariable n | DiscreteVariable n | StringVariable n => n
  end.

Global Instance OrangeVariable_eq_dec : EqDecision OrangeVariable.
Proof. solve_decision. Defined.

Record Domain : Type := mkDomain {
  attributes : list OrangeVariable;
  class_vars : list OrangeVariable;
  metas : list OrangeVariable
}.

(** A cell of the [metas] part of a table, an array of Python objects. *)
Inductive Cell : Type :=
| Num (x : float64)
| Str (s : string).

(** A table: its domain and its three arrays, one row per instance. *)
Record Table : Type := mkTable {
  domain : Domain;
  X : list (list float64);
  Y : list (list float64);
  table_metas : list (list Cell);
  table_name : string;
  is_SqlTable : bool
}.

(** The position of a variable in a list of variables. *)
Fixpoint var_index (v : OrangeVariable) (vs : list OrangeVariable) : option nat :=
  match vs with
  | [] => None
  | w :: r => if decide (v = w) then Some O else S <$> var_index v r
  end.

Definition cell_float (c : Cell) : float64 :=
  match c with Num x => x | Str _ => NaN end.

(** The value of variable [v] in row [i] of [t]. *)
Definition lookup_cell (t : Table) (i : nat) (v : OrangeVariable) : option Cell :=
  match var_index v (attributes (domain t)) with
  | Some j => Num <$> (X t !! i ≫= (.!! j))
  | None =>
      match var_index v (class_vars (domain t)) with
      | Some j => Num <$> (Y t !! i ≫= (.!! j))
      | None =>
          match var_index v (metas (domain t)) with
          | Some j => table_metas t !! i ≫= (.!! j)
          | None => None
          end
      end
  end.

(** Modelled from the spec: [Table.from_table] of [Orange.data] is not in
    the file.  The new table has the rows of the source and, for every
    variable of the new domain, the column that variable has in the source
    (section 4.3: column selection, the class and meta columns passed
    through); a variable the source does not have is unknown (NaN). *)
Definition from_table (d : Domain) (source : Table) : Table :=
  let rows := seq 0 (length (X source)) in
  let num i v := default NaN (cell_float <$> lookup_cell source i v) in
  let obj i v := default (Num NaN) (lookup_cell source i v) in
  {| domain := d;
     X := (λ i, num i <$> attributes d) <$> rows;
     Y := (λ i, num i <$> class_vars d) <$> rows;
     table_metas := (λ i, obj i <$> metas d) <$> rows;
     table_name := table_name source;
     is_SqlTable := false |}.

(** A preprocessor of the projector's chain. *)
Inductive Preprocessor : Type :=
| Normalize (center : bool)
| OtherPreprocessor (id : string).

(** The reusable projector, [Orange.projection.PCA]: its configuration and
    the [component] attribute the widget writes on it. *)
Record PCA : Type := mkPCA {
  n_components : Z;
  random_state : Z;
  component : Z;
  preprocessors : list Preprocessor
}.

(** A fitted projection, the result of calling the projector on a table:
    what the widget reads from it, and [transform], its application to a
    table ([self._pca(data)]). *)
Record PCAModel : Type := mkPCAModel {
  explained_variance_ratio_ : list float64;
  components_ : list (list float64);
  orig_domain : Domain;
  transform : Table -> Table
}.

(** What is sent on the three output channels. *)
Inductive Signal : Type :=
| Send_transformed_data (t : option Table)
| Send_components (t : option Table)
| Send_pca (p : PCA).

(** The scree plot, [SliderGraph]: the curves shown, the position of the
    cut line and the ticks of the bottom axis. *)
Record SliderGraph : Type := mkSliderGraph {
  curves : option (list Z * list float64 * list float64);
  cutpoint_x : option Z;
  ticks : list (Z * string)
}.

(** ** The widget *)

(** Maximum number of PCA components that we can set in the widget *)
Definition MAX_COMPONENTS : Z := 100.

(** The attributes of an [OWPCA] instance.  [components_spin] is the range
    of the spin box of [ncomponents]; [Outputs] is the log of what was
    sent, most recent first; [transform_calls] is a ghost counter of the
    calls [self._pca(self.data)]. *)
Record OWPCA : Type := mkOWPCA {
  data : option Table;
  _pca : option PCAModel;
  _transformed : option Table;
  _variance_ratio : option (list float64);
  _cumulative : option (list float64);
  _pca_projector : PCA;
  _pca_preprocessors : list Preprocessor;
  ncomponents : Z;
  variance_covered : Z;
  normalize : bool;
  maxp : Z;
  axis_labels : Z;
  components_spin : Z * Z;
  plot : SliderGraph;
  Warning_trivial_components : bool;
  Outputs : list Signal;
  transform_calls : nat
}.

(** Assignment to one attribute, the others kept. *)

Definition upd_data (v : option Table) (s : OWPCA) : OWPCA :=
  mkOWPCA v (_pca s) (_transformed s) (_variance_ratio s) (_cumulative s)
    (_pca_projector s) (_pca_preprocessors s) (ncomponents s)
    (variance_covered s) (normalize s) (maxp s) (axis_labels s)
    (components_spin s) (plot s) (Warning_trivial_components s) (Outputs s)
    (transform_calls s).

Definition upd_pca (v : option PCAModel) (s : OWPCA) : OWPCA :=
  mkOWPCA (data s) v (_transformed s) (_variance_ratio s) (_cumulative s) (_pca_projector s) (_pca_preprocessors s) (ncomponents s) (variance_covered s) (normalize s) (maxp s) (axis_labels s) (components_spin s) (plot s) (Warning_trivial_components s) (Outputs s) (transform_calls s).

Definition upd_transformed (v : option Table) (s : OWPCA) : OWPCA :=
  mkOWPCA (data s) (_pca s) v (_variance_ratio s) (_cumulative s) (_pca_projector s) (_pca_preprocessors s) (ncomponents s) (variance_covered s) (normalize s) (maxp s) (axis_labels s) (components_spin s) (plot s) (Warning_trivial_components s) (Outputs s) (transform_calls s).

Definition upd_variance_ratio (v : option (list float64)) (s : OWPCA) : OWPCA :=
  mkOWPCA (data s) (_pca s) (_transformed s) v (_cumulative s) (_pca_projector s) (_pca_preprocessors s) (ncomponents s) (variance_covered s) (normalize s) (maxp s) (axis_labels s) (components_spin s) (plot s) (Warning_trivial_components s) (Outputs s) (transform_calls s).

Definition upd_cumulative (v : option (list float64)) (s : OWPCA) : OWPCA :=
  mkOWPCA (data s) (_pca s) (_transformed s) (_variance_ratio s) v (_pca_projector s) (_pca_preprocessors s) (ncomponents s) (variance_covered s) (normalize s) (maxp s) (axis_labels s) (components_spin s) (plot s) (Warning_trivial_components s) (Outputs s) (transform_calls s).

Definition upd_pca_projector (v : PCA) (s : OWPCA) : OWPCA :=
  mkOWPCA (data s) (_pca s) (_transformed s) (_variance_ratio s) (_cumulative s) v (_pca_preprocessors s) (ncomponents s) (variance_covered s) (normalize s) (maxp s) (axis_labels s) (components_spin s) (plot s) (Warning_trivial_components s) (Outputs s) (transform_calls s).

Definition upd_ncomponents (v : Z) (s : OWPCA) : OWPCA :=
  mkOWPCA (data s) (_pca s) (_transformed s) (_variance_ratio s) (_cumulative s) (_pca_projector s) (_pca_preprocessors s) v (variance_covered s) (normalize s) (maxp s) (axis_labels s) (components_spin s) (plot s) (Warning_trivial_components s) (Outputs s) (transform_calls s).

Definition upd_variance_covered (v : Z) (s : OWPCA) : OWPCA :=
  mkOWPCA (data s) (_pca s) (_transformed s) (_variance_ratio s) (_cumulative s) (_pca_projector s) (_pca_preprocessors s) (ncomponents s) v (normalize s) (maxp s) (axis_labels s) (components_spin s) (plot s) (Warning_trivial_components s) (Outputs s) (transform_calls s).

Definition upd_components_spin (v : Z * Z) (s : OWPCA) : OWPCA :=
  mkOWPCA (data s) (_pca s) (_transformed s) (_variance_ratio s) (_cumulative s) (_pca_projector s) (_pca_preprocessors s) (ncomponents s) (variance_covered s) (normalize s) (maxp s) (axis_labels s) v (plot s) (Warning_trivial_components s) (Outputs s) (transform_calls s).

Definition upd_plot (v : SliderGraph) (s : OWPCA) : OWPCA :=
  mkOWPCA (data s) (_pca s) (_transformed s) (_variance_ratio s) (_cumulative s) (_pca_projector s) (_pca_preprocessors s) (ncomponents s) (variance_covered s) (normalize s) (maxp s) (axis_labels s) (components_spin s) v (Warning_trivial_components s) (Outputs s) (transform_calls s).

Definition upd_Warning_trivial_components (v : bool) (s : OWPCA) : OWPCA :=
  mkOWPCA (data s) (_pca s) (_transformed s) (_variance_ratio s) (_cumulative s) (_pca_projector s) (_pca_preprocessors s) (ncomponents s) (variance_covered s) (normalize s) (maxp s) (axis_labels s) (components_spin s) (plot s) v (Outputs s) (transform_calls s).

Definition upd_Outputs (v : list Signal) (s : OWPCA) : OWPCA :=
  mkOWPCA (data s) (_pca s) (_transformed s) (_variance_ratio s) (_cumulative s) (_pca_projector s) (_pca_preprocessors s) (ncomponents s) (variance_covered s) (normalize s) (maxp s) (axis_labels s) (components_spin s) (plot s) (Warning_trivial_components s) v (transform_calls s).

Definition upd_transform_calls (v : nat) (s : OWPCA) : OWPCA :=
  mkOWPCA (data s) (_pca s) (_transformed s) (_variance_ratio s) (_cumulative s) (_pca_projector s) (_pca_preprocessors s) (ncomponents s) (variance_covered s) (normalize s) (maxp s) (axis_labels s) (components_spin s) (plot s) (Warning_trivial_components s) (Outputs s) v.


Definition upd_pca_preprocessors (v : list Preprocessor) (s : OWPCA) : OWPCA :=
  mkOWPCA (data s) (_pca s) (_transformed s) (_variance_ratio s)
    (_cumulative s) (_pca_projector s) v (ncomponents s) (variance_covered s)
    (normalize s) (maxp s) (axis_labels s) (components_spin s) (plot s)
    (Warning_trivial_components s) (Outputs s) (transform_calls s).

Definition upd_component (v : Z) (p : PCA) : PCA :=
  mkPCA (n_components p) (random_state p) v (preprocessors p).

Definition upd_preprocessors (v : list Preprocessor) (p : PCA) : PCA :=
  mkPCA (n_components p) (random_state p) (component p) v.

Definition upd_cutpoint_x (v : option Z) (g : SliderGraph) : SliderGraph :=
  mkSliderGraph (curves g) v (ticks g).

Definition upd_ticks (v : list (Z * string)) (g : SliderGraph) : SliderGraph :=
  mkSliderGraph (curves g) (cutpoint_x g) v.

(** ** Methods as state transformers

    A method runs on a mutable object (the widget, or a settings
    dictionary) and either returns a value with the object as it left it, or
    raises with the object as it was when the exception left the method:
    assignments made before a raise are kept, as they are in Python. *)

Inductive Res (S A : Type) : Type :=
| Ok (a : A) (s : S)
| Raise (e : Exn) (s : S).

Arguments Ok {S A} a s.
Arguments Raise {S A} e s.

Definition ST (S A : Type) : Type := S -> Res S A.

Global Instance ST_ret {S} : MRet (ST S) := λ A a s, Ok a s.

Global Instance ST_bind {S} : MBind (ST S) := λ A B f m s,
  match m s with
  | Ok a s' => f a s'
  | Raise e s' => Raise e s'
  end.

Definition raise {S A} (e : Exn) : ST S A := λ s, Raise e s.

(** Reading the object, and updating it. *)
Definition gets {S A} (f : S -> A) : ST S A := λ s, Ok (f s) s.

Definition modify {S} (f : S -> S) : ST S unit := λ s, Ok tt (f s).

(** The value of an operation that fails with [e] when it has none. *)
Definition require {S A} (e : Exn) (o : option A) : ST S A :=
  match o with
  | Some a => mret a
  | None => raise e
  end.

(** The object after a call, whether it returned or raised. *)
Definition state_of {S A} (r : Res S A) : S :=
  match r with Ok _ s | Raise _ s => s end.

(** The methods of the widget. *)
Abbreviation M := (ST OWPCA).

(** Python's [int] on a float. *)
Definition py_int (x : float64) : M Z :=
  match x with
  | Fin a => mret (Qtrunc a)
  | NaN => raise ValueError
  | _ => raise OverflowError
  end.

(** [len(a)] and [a[i]] on an attribute that holds an array or [None]. *)
Definition len (a : option (list float64)) : M Z :=
  l ← require TypeError a; mret (Z.of_nat (length l)).

Definition subscript (a : option (list float64)) (i : Z) : M float64 :=
  l ← require TypeError a; require IndexError (getitem l i).

(** [range(start, stop, step)] for a positive step. *)
Definition range_step (start stop step : Z) : list Z :=
  (λ k, start + Z.of_nat k * step) <$>
    seq 0 (Z.to_nat ((stop - start + step - 1) / step)).

Section Widget.

(** The decomposition provider: the call [self._pca_projector(data)] of
    [Orange.projection.PCA], and its class attribute [PCA.preprocessors]. *)
Variable PCA_call : PCA -> Table -> PCAModel.
Variable PCA_preprocessors : list Preprocessor.

Definition send (sig : Signal) : M unit :=
  modify (λ s, upd_Outputs (sig :: Outputs s) s).

Definition clear_plot : M unit :=
  modify (λ s, upd_plot (mkSliderGraph None None (ticks (plot s))) s).

Definition set_cut_point (cut : Z) : M unit :=
  modify (λ s, upd_plot (upd_cutpoint_x (Some cut) (plot s)) s).

Definition _init_projector : M unit :=
  modify (upd_pca_projector (mkPCA MAX_COMPONENTS 0 0 PCA_preprocessors));;
  nc ← gets ncomponents;
  modify (λ s, upd_pca_projector (upd_component nc (_pca_projector s)) s);;
  modify (upd_pca_preprocessors PCA_preprocessors).

Definition clear : M unit :=
  modify (upd_pca None);;
  modify (upd_transformed None);;
  modify (upd_variance_ratio None);;
  modify (upd_cumulative None);;
  clear_plot.

Definition commit : M unit :=
  pca_opt ← gets _pca;
  outs ← match pca_opt with
         | None => mret (None, None)
         | Some pca =>
             cached ← gets _transformed;
             match cached with
             | None =>
                 (* Compute the full transform (MAX_COMPONENTS components) once. *)
                 d ← gets data ≫= require AttributeError;
                 modify (upd_transformed (Some (transform pca d)));;
                 modify (λ s, upd_transform_calls (S (transform_calls s)) s)
             | Some _ => mret tt
             end;;
             transformed ← gets _transformed ≫= require AttributeError;
             d ← gets data ≫= require AttributeError;
             nc ← gets ncomponents;
             let domain' :=
               mkDomain (slice_to (attributes (domain transformed)) nc)
                        (class_vars (domain d)) (metas (domain d)) in
             let transformed' := from_table domain' transformed in
             let dom :=
               mkDomain ((λ a, ContinuousVariable (name a)) <$>
                           attributes (orig_domain pca))
                        [] [StringVariable "component"] in
             let metas' := (λ i, [Str ("PC" +:+ pretty (i + 1))]) <$> range nc in
             let rows := slice_to (components_ pca) nc in
             let components :=
               mkTable dom rows ((λ _, []) <$> rows) metas' "components" false in
             mret (Some transformed', Some components)
         end;
  nc ← gets ncomponents;
  modify (λ s, upd_pca_projector (upd_component nc (_pca_projector s)) s);;
  send (Send_transformed_data outs.1);;
  send (Send_components outs.2);;
  p ← gets _pca_projector;
  send (Send_pca p).

(** [gui.auto_commit] keeps the method under this name. *)
Definition unconditional_commit : M unit := commit.

Definition _invalidate_selection : M unit := commit.

Definition _nselected_components : M Z :=
  pca_opt ← gets _pca;
  match pca_opt with
  | None => mret 0
  | Some _ =>
      nc ← gets ncomponents;
      max_comp ← (if nc =? 0
                  then (* Special "All" value *) gets _variance_ratio ≫= len
                  else mret nc);
      var_max ← (c ← gets _cumulative; subscript c (max_comp - 1));
      vc ← gets variance_covered;
      if fne var_max (floor (fdiv (of_int vc) (Fin 100))) then
        (if isfinite var_max then mret tt else raise AssertionError);;
        v ← py_int (fmul var_max (of_int 100));
        modify (upd_variance_covered v);;
        mret max_comp
      else
        c ← gets _cumulative ≫= require TypeError;
        vc ← gets variance_covered;
        let cut := searchsorted c (fdiv (of_int vc) (Fin 100)) + 1 in
        modify (upd_ncomponents cut);;
        mret cut
  end.

Definition _update_axis : M unit :=
  n ← gets _variance_ratio ≫= len;
  mp ← gets maxp;
  let p := Z.min n mp in
  al ← gets axis_labels;
  (if al - 1 =? 0 then raise ZeroDivisionError else mret tt);;
  let d := Z.max ((p - 1) / (al - 1)) 1 in
  modify (λ s, upd_plot
                 (upd_ticks ((λ i, (i, pretty i)) <$> range_step 1 (p + 1) d)
                            (plot s)) s).

Definition _setup_plot : M unit :=
  pca_opt ← gets _pca;
  match pca_opt with
  | None => clear_plot
  | Some _ =>
      explained_ratio ← gets _variance_ratio;
      explained ← gets _cumulative;
      cutpos ← _nselected_components;
      n ← gets _variance_ratio ≫= len;
      mp ← gets maxp;
      let p := Z.min n mp in
      r ← require TypeError explained_ratio;
      e ← require TypeError explained;
      modify (λ s, upd_plot
                     (mkSliderGraph
                        (Some (range_step 1 (p + 1) 1, slice_to r p, slice_to e p))
                        (Some cutpos) (ticks (plot s))) s);;
      _update_axis
  end.

Definition _on_cut_changed (components : Z) : M unit :=
  nc ← gets ncomponents;
  all_cut ← (if nc =? 0
             then n ← gets _variance_ratio ≫= len; mret (components =? n)
             else mret false);
  (if negb all_cut then modify (upd_ncomponents components) else mret tt);;
  pca_opt ← gets _pca;
  match pca_opt with
  | Some _ =>
      var ← (c ← gets _cumulative; subscript c (components - 1));
      if isfinite var
      then v ← py_int (fmul var (of_int 100)); modify (upd_variance_covered v)
      else mret tt
  | None => mret tt
  end;;
  n ← _nselected_components;
  if negb (components =? n) then _invalidate_selection else mret tt.

Definition _update_selection_component_spin : M unit :=
  (* cut changed by "ncomponents" spin. *)
  pca_opt ← gets _pca;
  match pca_opt with
  | None => _invalidate_selection
  | Some _ =>
      nc ← gets ncomponents;
      cut ← (if nc =? 0
             then (* Special "All" value *) gets _variance_ratio ≫= len
             else mret nc);
      var ← (c ← gets _cumulative; subscript c (cut - 1));
      (if isfinite var
       then v ← py_int (fmul var (of_int 100)); modify (upd_variance_covered v)
       else mret tt);;
      set_cut_point cut;;
      _invalidate_selection
  end.

Definition _update_selection_variance_spin : M unit :=
  (* cut changed by "max variance" spin. *)
  pca_opt ← gets _pca;
  match pca_opt with
  | None => mret tt
  | Some _ =>
      c ← gets _cumulative ≫= require TypeError;
      vc ← gets variance_covered;
      let cut := searchsorted c (fdiv (of_int vc) (Fin 100)) + 1 in
      let cut := Z.min cut (Z.of_nat (length c)) in
      modify (upd_ncomponents cut);;
      set_cut_point cut;;
      _invalidate_selection
  end.

(** Modelled from the spec: [components_spin.setRange] belongs to the spin
    box of [Orange.widgets.gui], which is not in the file.  The box keeps
    its value, the attribute [ncomponents], inside its range (section 4.2:
    a count requested above the spectrum length is clamped to the spectrum
    length). *)
Definition components_spin_setRange (lo hi : Z) : M unit :=
  modify (upd_components_spin (lo, hi));;
  nc ← gets ncomponents;
  modify (upd_ncomponents (Z.max lo (Z.min hi nc))).

Definition fit : M unit :=
  clear;;
  modify (upd_Warning_trivial_components false);;
  d_opt ← gets data;
  match d_opt with
  | None => mret tt
  | Some d =>
      nrm ← gets normalize;
      pre ← gets _pca_preprocessors;
      modify (λ s, upd_pca_projector
                     (upd_preprocessors
                        (if nrm : bool then pre ++ [Normalize false] else pre)
                        (_pca_projector s)) s);;
      if negb (is_SqlTable d) then
        projector ← gets _pca_projector;
        let pca := PCA_call projector d in
        let variance_ratio := explained_variance_ratio_ pca in
        let cumulative := cumsum variance_ratio in
        last ← require IndexError (getitem cumulative (-1));
        (if isfinite last then
           components_spin_setRange 0 (Z.of_nat (length cumulative));;
           modify (upd_pca (Some pca));;
           modify (upd_variance_ratio (Some variance_ratio));;
           modify (upd_cumulative (Some cumulative));;
           _setup_plot
         else modify (upd_Warning_trivial_components true));;
        unconditional_commit
      else mret tt
  end.

Definition _update_normalize : M unit :=
  fit;;
  d_opt ← gets data;
  match d_opt with
  | None => _invalidate_selection
  | Some _ => mret tt
  end.

End Widget.

(** ** The entry points of the selection

    The two spin boxes are bound to the attributes [ncomponents] and
    [variance_covered]: a new value is assigned to the attribute and the
    callback of the box is called. *)

Definition setByCount (n : Z) : M unit :=
  modify (upd_ncomponents n);; _update_selection_component_spin.

Definition setByVariance (p : Z) : M unit :=
  modify (upd_variance_covered p);; _update_selection_variance_spin.

Definition resolveCount : M Z := _nselected_components.

(** ** Migration of persisted settings *)

(** The values a settings dictionary holds. *)
Inductive PyVal : Type :=
| PyInt (z : Z)
| PyBool (b : bool)
| PyFloat (x : float64)
| PyStr (s : string)
| PyNone.

(** [isinstance(v, numbers.Real)]: [bool] is a subclass of [int]. *)
Definition is_Real (v : PyVal) : bool :=
  match v with
  | PyInt _ | PyBool _ | PyFloat _ => true
  | PyStr _ | PyNone => false
  end.

(** [numpy.isfinite] on a real number.  numpy takes a Python integer as a
    64-bit integer; one that fits neither [int64] nor [uint64] becomes an
    array of objects, which [isfinite] rejects. *)
Definition np_isfinite {S} (v : PyVal) : ST S bool :=
  match v with
  | PyInt z =>
      if (- 2 ^ 63 <=? z) && (z <? 2 ^ 64) then mret true else raise TypeError
  | PyBool _ => mret true
  | PyFloat x => mret (isfinite x)
  | PyStr _ | PyNone => raise TypeError
  end.

(** [int(v)] *)
Definition int_of {S} (v : PyVal) : ST S Z :=
  match v with
  | PyInt z => mret z
  | PyBool b => mret (if b then 1 else 0)
  | PyFloat (Fin a) => mret (Qtrunc a)
  | PyFloat NaN => raise ValueError
  | PyFloat _ => raise OverflowError
  | PyStr _ | PyNone => raise TypeError
  end.

(** [v > n] for an integer [n]; numbers and other values do not compare. *)
Definition gt_int {S} (v : PyVal) (n : Z) : ST S bool :=
  match v with
  | PyInt z => mret (n <? z)
  | PyBool b => mret (n <? (if b then 1 else 0))
  | PyFloat x => mret (flt (of_int n) x)
  | PyStr _ | PyNone => raise TypeError
  end.

(** [settings.pop(key, None)] *)
Definition pop (key : string) : ST (gmap string PyVal) unit :=
  modify (delete key).

Definition migrate_settings (version : option Z) : ST (gmap string PyVal) unit :=
  present ← gets (λ settings : gmap string PyVal, settings !! "variance_covered");
  match present with
  | Some vc =>
      (* Due to the error in gh-1896 the variance_covered was persisted
         as a NaN value, causing a TypeError in the widgets `__init__`. *)
      if is_Real vc then
        finite ← np_isfinite vc;
        vc' ← (if finite : bool then int_of vc else mret 100);
        modify (<["variance_covered" := PyInt vc']>)
      else mret tt
  | None => mret tt
  end;;
  nc ← gets (λ settings : gmap string PyVal,
               default (PyInt 0) (settings !! "ncomponents"));
  above ← gt_int nc MAX_COMPONENTS;
  (if above : bool
   then modify (<["ncomponents" := PyInt MAX_COMPONENTS]>)
   else mret tt);;
  (* Remove old `decomposition_idx` when SVD was still included *)
  pop "decomposition_idx";;
  (* Remove RemotePCA settings *)
  pop "batch_size";;
  pop "address";;
  pop "auto_update".

(** ** The widget as it is created

    [__init__] sets the attributes to [None] and the settings to their
    defaults, creates the projector and the controls (the spin box of
    [ncomponents] with the range 1 to [MAX_COMPONENTS]) and ends with
    [_update_normalize]. *)

Definition blank : OWPCA :=
  {| data := None;
     _pca := None;
     _transformed := None;
     _variance_ratio := None;
     _cumulative := None;
     _pca_projector := mkPCA MAX_COMPONENTS 0 0 [];
     _pca_preprocessors := [];
     ncomponents := 2;
     variance_covered := 100;
     normalize := true;
     maxp := 20;
     axis_labels := 10;
     components_spin := (1, MAX_COMPONENTS);
     plot := mkSliderGraph None None [];
     Warning_trivial_components := false;
     Outputs := [];
     transform_calls := 0 |}.

Definition __init__ (PCA_call : PCA -> Table -> PCAModel)
    (PCA_preprocessors : list Preprocessor) : OWPCA :=
  state_of ((_init_projector PCA_preprocessors;;
             _update_normalize PCA_call) blank).

(** ** Events of the selection

    After a fit, the widget is driven by its controls: the two spin boxes,
    the cut line of the plot and the commit itself.  An exception raised by
    a callback is reported by the event loop, which goes on with the widget
    as the callback left it. *)

Inductive Event : Type :=
| SetByCount (n : Z)
| SetByVariance (p : Z)
| CutChanged (components : Z)
| Commit.

Definition handle (e : Event) : M unit :=
  match e with
  | SetByCount n => setByCount n
  | SetByVariance p => setByVariance p
  | CutChanged c => _on_cut_changed c
  | Commit => commit
  end.

Fixpoint run (es : list Event) (s : OWPCA) : OWPCA :=
  match es with
  | [] => s
  | e :: r => run r (state_of (handle e s))
  end.

(** ** Predicates of the statements *)

(** The projector as [fit] configures it before calling it. *)
Definition configured_projector (s : OWPCA) : PCA :=
  upd_preprocessors
    (if normalize s then _pca_preprocessors s ++ [Normalize false]
     else _pca_preprocessors s)
    (_pca_projector s).

(** The widget holds a fitted projection of a dataset, as [fit] installs
    it: the variance ratios [vr], their running sums, and a finite last
    cumulative value. *)
Definition installed (s : OWPCA) (vr : list float64) : Prop :=
  is_Some (_pca s) ∧ is_Some (data s) ∧
  _variance_ratio s = Some vr ∧ _cumulative s = Some (cumsum vr) ∧
  ∃ q, getitem (cumsum vr) (-1) = Some (Fin q).

(** A sequence of floats is non-decreasing. *)
Definition nondecreasing (a : list float64) : Prop :=
  ∀ i j x y, (i <= j)%nat -> a !! i = Some x -> a !! j = Some y ->
             fle x y = true.

(** The executable test of it. *)
Fixpoint is_nondecreasing (a : list float64) : bool :=
  match a with
  | [] => true
  | x :: r => fle x x && forallb (fle x) r && is_nondecreasing r
  end.

(** [p / 100.0] *)
Definition percent (p : Z) : float64 := fdiv (of_int p) (Fin 100).

(** The count [c] covers [p] percent: [cumulative[c-1] >= p/100]. *)
Definition covers (cum : list float64) (p c : Z) : bool :=
  match getitem cum (c - 1) with
  | Some x => fle (percent p) x
  | None => false
  end.


(** Every value of the sequence is a fraction between 0 and 1. *)
Definition in_unit_interval (a : list float64) : Prop :=
  ∀ x, x ∈ a -> ∃ q, x = Fin q ∧ (0 <= q)%Q ∧ (q <= 1)%Q.

(** The selection is in range for a spectrum of length [L]: a percentage
    and a count that is 0 or at most [L]. *)
Definition selection_in_range (L : nat) (s : OWPCA) : Prop :=
  0 <= variance_covered s <= 100 ∧ 0 <= ncomponents s <= Z.of_nat L.


(** The three signals of one commit, as they appear in the log. *)
Definition commit_signals (t c : option Table) (p : PCA) : list Signal :=
  [Send_pca p; Send_components c; Send_transformed_data t].

(** ** A small session

    A dataset of eight features with nine rows, the same with five rows, and
    a provider whose spectrum halves at every component: eight components
    for nine rows, five for five rows.  For a dataset of two rows the
    provider reports a spectrum of one zero ratio, and for any other
    dataset ratios that are not numbers, as for constant data. *)

Definition ex_domain : Domain :=
  mkDomain ((λ j, ContinuousVariable ("x" +:+ pretty (Z.of_nat j))) <$> seq 1 8)
           [DiscreteVariable "y"] [StringVariable "id"].

Definition ex_table (rows : nat) : Table :=
  mkTable ex_domain
    ((λ i, (λ j, of_int (Z.of_nat (i * j + i + j))) <$> seq 0 8) <$> seq 0 rows)
    ((λ i, [of_int (Z.of_nat (i mod 2))]) <$> seq 0 rows)
    ((λ i, [Str ("r" +:+ pretty (Z.of_nat i))]) <$> seq 0 rows)
    "example" false.

(** The ratios 1/2, 1/4, ..., 1/2^k. *)
Definition halves (k : nat) : list float64 :=
  (λ i, Fin (1 # Pos.of_nat (2 ^ i))) <$> seq 1 k.

Definition ex_transform (k : nat) (t : Table) : Table :=
  mkTable
    (mkDomain ((λ j, ContinuousVariable ("PC" +:+ pretty (Z.of_nat j))) <$> seq 1 k)
              (class_vars (domain t)) (metas (domain t)))
    (take k <$> X t) (Y t) (table_metas t) (table_name t) false.

Definition ex_model (ratios : list float64) : PCAModel :=
  let k := length ratios in
  mkPCAModel ratios
    ((λ i, (λ j, of_int (if (i =? j)%nat then 1 else 0)) <$> seq 0 8) <$> seq 0 k)
    ex_domain (ex_transform k).

Definition ex_call (p : PCA) (d : Table) : PCAModel :=
  match length (X d) with
  | 9%nat => ex_model (halves 8)
  | 5%nat => ex_model (halves 5)
  | 2%nat => ex_model [Fin 0]
  | _ => ex_model [NaN; NaN]
  end.

(** The widget after creation, then with the nine rows fitted. *)
Definition ex_new : OWPCA := __init__ ex_call [].

Definition ex_fit (rows : nat) (s : OWPCA) : OWPCA :=
  state_of (fit ex_call (upd_data (Some (ex_table rows)) s)).

Definition ex_fitted : OWPCA := ex_fit 9 ex_new.

(** A settings dictionary of an old version. *)
Definition ex_settings : gmap string PyVal :=
  <["variance_covered" := PyFloat NaN]>
    (<["ncomponents" := PyInt 500]>
       (<["address" := PyStr "localhost"]>
          (<["maxp" := PyInt 20]> ∅))).

(** One whose [ncomponents] is not a number. *)
Definition ex_settings_text : gmap string PyVal :=
  <["ncomponents" := PyStr "all"]> (<["address" := PyStr "localhost"]> ∅).

(** The value [variance_covered] has after migration, by its value before. *)
Definition migrated_variance_covered (v : PyVal) : PyVal :=
  match v with
  | PyInt z => PyInt z
  | PyBool b => PyInt (if b then 1 else 0)
  | PyFloat (Fin a) => PyInt (Qtrunc a)
  | PyFloat _ => PyInt 100
  | PyStr _ | PyNone => v
  end.

(** [v] is a number above [n]. *)
Definition exceeds (v : PyVal) (n : Z) : bool :=
  match v with
  | PyInt z => n <? z
  | PyBool b => n <? (if b then 1 else 0)
  | PyFloat x => flt (of_int n) x
  | PyStr _ | PyNone => false
  end.

(** The keys [migrate_settings] removes. *)
Definition removed_keys : list string :=
  ["decomposition_idx"; "batch_size"; "address"; "auto_update"].

(** ** The input handler

    [set_data] also reports through the messages of the widget: the two
    errors of [OWPCA.Error] and the information line.  They are kept beside
    the attributes. *)

Record OWWidget : Type := mkOWWidget {
  widget : OWPCA;
  Error_no_features : bool;
  Error_no_instances : bool;
  Information : option string
}.

Definition upd_widget (v : OWPCA) (w : OWWidget) : OWWidget :=
  mkOWWidget v (Error_no_features w) (Error_no_instances w) (Information w).

Definition upd_Error_no_features (v : bool) (w : OWWidget) : OWWidget :=
  mkOWWidget (widget w) v (Error_no_instances w) (Information w).

Definition upd_Error_no_instances (v : bool) (w : OWWidget) : OWWidget :=
  mkOWWidget (widget w) (Error_no_features w) v (Information w).

Definition upd_Information (v : option string) (w : OWWidget) : OWWidget :=
  mkOWWidget (widget w) (Error_no_features w) (Error_no_instances w) v.

Definition upd_normalize (v : bool) (s : OWPCA) : OWPCA :=
  mkOWPCA (data s) (_pca s) (_transformed s) (_variance_ratio s)
    (_cumulative s) (_pca_projector s) (_pca_preprocessors s)
    (ncomponents s) (variance_covered s) v (maxp s) (axis_labels s)
    (components_spin s) (plot s) (Warning_trivial_components s) (Outputs s)
    (transform_calls s).

(** A method of the widget run on the attributes. *)
Definition lift {A} (m : M A) : ST OWWidget A := λ w,
  match m (widget w) with
  | Ok a s => Ok a (upd_widget s w)
  | Raise e s => Raise e (upd_widget s w)
  end.

(** [Table(data)] builds a table in memory, which is no [SqlTable]. *)
Definition in_memory (t : Table) : Table :=
  mkTable (domain t) (X t) (Y t) (table_metas t) (table_name t) false.

Section Input.

Variable PCA_call : PCA -> Table -> PCAModel.
Variable PCA_preprocessors : list Preprocessor.

(** What the database answers for an [SqlTable]: its approximate length,
    its rows, and the rows of the downloaded time sample. *)
Variable approx_len : Table -> Z.
Variable AUTO_DL_LIMIT : Z.
Variable download : Table -> Table.
Variable sample_time_download : Table -> Table.

(** What the settings handler restores when a context is opened:
    [normalize] is the one context setting of the widget. *)
Variable openContext : option Table -> bool -> bool.

(** [clear_messages] removes the errors, the warning and the information
    line. *)
Definition clear_messages : ST OWWidget unit :=
  modify (upd_Error_no_features false);;
  modify (upd_Error_no_instances false);;
  lift (modify (upd_Warning_trivial_components false));;
  modify (upd_Information None).

Definition information (msg : option string) : ST OWWidget unit :=
  modify (upd_Information msg).

Definition clear_outputs : M unit :=
  send (Send_transformed_data None);;
  send (Send_components None);;
  p ← gets _pca_projector;
  send (Send_pca p).

(** [set_data], the handler of the input [Data].  Its two early returns
    are the two branches that end with [clear_outputs]; the rest of the
    method is [accept]. *)
Definition set_data (data : option Table) : ST OWWidget unit :=
  (* closeContext stores the context in the settings handler *)
  clear_messages;;
  lift clear;;
  information None;;
  lift (modify (upd_data None));;
  data ← match data with
         | Some d =>
             if is_SqlTable d then
               if approx_len d <? AUTO_DL_LIMIT
               then mret (Some (in_memory (download d)))
               else
                 information (Some "Data has been sampled");;
                 mret (Some (in_memory (sample_time_download d)))
             else mret (Some d)
         | None => mret None
         end;
  let accept : ST OWWidget unit :=
    lift (modify (λ s, upd_normalize (openContext data (normalize s)) s));;
    lift (_init_projector PCA_preprocessors);;
    lift (modify (upd_data data));;
    lift (fit PCA_call) in
  match data with
  | Some d =>
      if bool_decide (attributes (domain d) = []) then
        modify (upd_Error_no_features true);;
        lift clear_outputs
      else if bool_decide (X d = []) then
        modify (upd_Error_no_instances true);;
        lift clear_outputs
      else accept
  | None => accept
  end.

End Input.

(** ** The cached transform and the data

    The table kept in [_transformed] is the transform of the current data
    by the current projection. *)
Definition cache_coherent (s : OWPCA) : Prop :=
  ∀ t, _transformed s = Some t ->
       ∃ m d, _pca s = Some m ∧ data s = Some d ∧ t = transform m d.


(** The widget of the session with its messages, a table without
    features, and the input handler for a database that answers with the
    table itself and a settings handler that restores nothing. *)
Definition ex_widget : OWWidget := mkOWWidget ex_new false false None.

Definition ex_no_features : Table :=
  mkTable (mkDomain [] [DiscreteVariable "y"] [])
    [[]; []] [[of_int 0]; [of_int 1]] [[]; []] "labels" false.

Definition ex_set_data (input : option Table) : ST OWWidget unit :=
  set_data ex_call [] (λ _, 0) 1000 id id (λ _ b, b) input.

(** * Properties *)

(** ** Running a method

    [steps] unfolds the methods, the monad and the attribute accesses, and
    nothing of the data they compute on. *)

Ltac steps :=
  cbv beta iota zeta delta
    [handle setByCount setByVariance resolveCount
     fit _update_normalize components_spin_setRange
     _update_selection_variance_spin _update_selection_component_spin
     _on_cut_changed _setup_plot _update_axis _nselected_components
     _invalidate_selection unconditional_commit commit clear _init_projector
     set_cut_point clear_plot send
     len subscript py_int require gets modify raise state_of
     mbind mret ST_bind ST_ret fst snd
     upd_data upd_pca upd_transformed upd_variance_ratio upd_cumulative
     upd_pca_projector upd_ncomponents upd_variance_covered
     upd_components_spin upd_plot upd_Warning_trivial_components
     upd_Outputs upd_transform_calls upd_pca_preprocessors
     upd_component upd_preprocessors upd_cutpoint_x upd_ticks
     data _pca _transformed _variance_ratio _cumulative _pca_projector
     _pca_preprocessors ncomponents variance_covered normalize maxp
     axis_labels components_spin plot Warning_trivial_components Outputs
     transform_calls
     n_components random_state component preprocessors
     curves cutpoint_x ticks commit_signals configured_projector] in *.

(** The widget seen as the record of its attributes. *)
Ltac attributes_of s :=
  destruct s as [d_ pca_ tr_ vr_ cum_ proj_ pre_ nc_ vc_ nrm_ maxp_ al_ spin_
                 plot_ warn_ outs_ calls_];
  steps.

(** Case analysis along the run of a method: on the attributes that hold
    an option, on the subscripted value and on the tests. *)
Ltac split_all :=
  steps;
  repeat (cbv beta iota zeta;
    match goal with
    | |- _ => progress cbn [isfinite fmul of_int]
    | H : getitem ?a ?i = _ |- context [getitem ?a ?i] => rewrite H
    | H : ?b = true |- context [if ?b then _ else _] => rewrite H
    | H : ?b = false |- context [if ?b then _ else _] => rewrite H
    | |- context [match ?x with _ => _ end] =>
        is_var x;
        lazymatch type of x with
        | Res _ _ => fail
        | OWPCA => fail
        | _ => destruct x
        end
    | |- context [match getitem ?a ?i with _ => _ end] =>
        destruct (getitem a i) eqn:?
    | |- context [isfinite ?f] =>
        is_var f; destruct f
    | |- context [if ?b then _ else _] =>
        lazymatch b with
        | context [match _ with _ => _ end] => fail
        | _ => destruct b eqn:?
        end
    end).

(** Conjunctions of facts about the example session, each by evaluation. *)
Ltac evaluate :=
  cbv zeta;
  repeat match goal with
         | |- _ ∧ _ => split
         | |- ∃ _, _ => eexists
         | |- is_Some _ => eexists
         | |- Forall _ _ => constructor
         end;
  vm_compute; reflexivity.

(** ** Floats, sequences and the search *)

Lemma Qtrunc_nonneg (a : Q) : (0 <= a)%Q -> Qtrunc a = Qfloor a.
Proof.
  destruct a as [n d]. unfold Qle, Qtrunc, Qfloor. simpl. intros H.
  apply Z.quot_div_nonneg; lia.
Qed.

(** [int(var * 100)] of a fraction is a percentage. *)
Lemma Qtrunc_percent_bounds (a : Q) :
  (0 <= a)%Q -> (a <= 1)%Q -> 0 <= Qtrunc (a * inject_Z 100) <= 100.
Proof.
  intros H0 H1. change (inject_Z 100) with 100%Q.
  assert (Ha : (0 <= a * 100)%Q) by (apply Qmult_le_0_compat; [done | discriminate]).
  rewrite Qtrunc_nonneg by done. split.
  - change 0 with (Qfloor 0). by apply Qfloor_resp_le.
  - change 100 with (Qfloor (inject_Z 100)). apply Qfloor_resp_le.
    apply Qle_trans with (1 * 100)%Q; [| discriminate].
    apply Qmult_le_compat_r; [done | discriminate].
Qed.

Lemma Qfloor_percent (vc : Z) :
  0 <= vc <= 100 ->
  Qfloor (inject_Z vc / 100) = if vc =? 100 then 1 else 0.
Proof.
  intros H. unfold Qfloor, Qdiv, Qmult, Qinv, inject_Z. simpl.
  rewrite Z.mul_1_r. destruct (Z.eqb_spec vc 100) as [->|Hne]; [done|].
  apply Z.div_small. lia.
Qed.

Section Binsearch.

Variable a : list float64.
Variable key : float64.

(** In [a], the elements below the key come first. *)
Hypothesis below_first : ∀ i j x y,
  (i <= j)%nat -> a !! i = Some x -> a !! j = Some y ->
  np_less y key = true -> np_less x key = true.

Lemma binsearch_bounds fuel lo hi :
  (lo <= hi)%nat -> (lo <= binsearch fuel a key lo hi <= hi)%nat.
Proof.
  revert lo hi. induction fuel as [|fuel IH]; intros lo hi Hle; cbn [binsearch]; [lia|].
  destruct (lo <? hi)%nat eqn:Hlt; [|lia].
  apply Nat.ltb_lt in Hlt.
  assert (Hmid : (lo <= lo + (hi - lo) / 2 < hi)%nat).
  { pose proof (Nat.div_lt (hi - lo) 2). lia. }
  destruct (a !! (lo + (hi - lo) / 2)%nat) as [x|]; [|lia].
  destruct (np_less x key).
  - specialize (IH (S (lo + (hi - lo) / 2)) hi). lia.
  - specialize (IH lo (lo + (hi - lo) / 2)%nat). lia.
Qed.

Lemma binsearch_lower_bound fuel lo hi :
  (hi - lo <= fuel)%nat -> (lo <= hi <= length a)%nat ->
  (∀ i x, (i < lo)%nat -> a !! i = Some x -> np_less x key = true) ->
  (∀ i x, (hi <= i)%nat -> a !! i = Some x -> np_less x key = false) ->
  let r := binsearch fuel a key lo hi in
  (∀ i x, (i < r)%nat -> a !! i = Some x -> np_less x key = true) ∧
  (∀ i x, (r <= i)%nat -> a !! i = Some x -> np_less x key = false).
Proof.
  revert lo hi. induction fuel as [|fuel IH]; intros lo hi Hfuel Hle Hlo Hhi; cbn [binsearch].
  - assert (lo = hi) by lia. subst. auto.
  - destruct (lo <? hi)%nat eqn:Hlt.
    2:{ apply Nat.ltb_ge in Hlt. assert (lo = hi) by lia. subst. auto. }
    apply Nat.ltb_lt in Hlt.
    set (mid := (lo + (hi - lo) / 2)%nat).
    assert (Hmid : (lo <= mid < hi)%nat).
    { subst mid. pose proof (Nat.div_lt (hi - lo) 2). lia. }
    destruct (lookup_lt_is_Some_2 a mid) as [x Hx]; [lia|].
    rewrite Hx. destruct (np_less x key) eqn:Hless.
    + apply IH; [lia | lia | | done].
      intros i y Hi Hy. eapply (below_first i mid); eauto. lia.
    + apply IH; [lia | lia | done |].
      intros i y Hi Hy. destruct (np_less y key) eqn:Hy'; [|done].
      rewrite <- Hless. symmetry. eapply (below_first mid i); eauto.
Qed.

End Binsearch.

Lemma np_less_finite (x : float64) (k : Q) : np_less x (Fin k) = flt x (Fin k).
Proof. unfold np_less. simpl. apply orb_false_r. Qed.

Lemma fle_flt_trans (x y : float64) (k : Q) :
  fle x y = true -> flt y (Fin k) = true -> flt x (Fin k) = true.
Proof.
  destruct x as [a| | |], y as [b| | |]; simpl; try done.
  intros Hab Hbk. apply negb_true_iff in Hbk. apply negb_true_iff.
  destruct (Qle_bool k a) eqn:Hka; [|done].
  apply Qle_bool_iff in Hab, Hka.
  assert (Hkb : Qle_bool k b = true) by (apply Qle_bool_iff; by eapply Qle_trans).
  congruence.
Qed.

Lemma not_flt_fle (x : float64) (k : Q) :
  fle x x = true -> flt x (Fin k) = false -> fle (Fin k) x = true.
Proof.
  destruct x as [a| | |]; simpl; try done.
  intros _ H. by apply negb_false_iff in H.
Qed.

Lemma flt_not_fle (x y : float64) : flt x y = true -> fle y x = false.
Proof.
  destruct x as [a| | |], y as [b| | |]; simpl; try done.
  intros H. by apply negb_true_iff in H.
Qed.

(** On a non-decreasing array, [searchsorted] returns the number of
    elements below the key: the elements before it are below the key and
    the elements from it on are not. *)
Lemma searchsorted_lower_bound (a : list float64) (k : Q) :
  nondecreasing a ->
  let r := searchsorted a (Fin k) in
  0 <= r <= Z.of_nat (length a) ∧
  (∀ i x, Z.of_nat i < r -> a !! i = Some x -> flt x (Fin k) = true) ∧
  (∀ i x, r <= Z.of_nat i -> a !! i = Some x -> fle (Fin k) x = true).
Proof.
  intros Hnd. unfold searchsorted.
  assert (Hfirst : ∀ i j x y, (i <= j)%nat -> a !! i = Some x -> a !! j = Some y ->
                     np_less y (Fin k) = true -> np_less x (Fin k) = true).
  { intros i j x y Hij Hx Hy. rewrite !np_less_finite.
    apply fle_flt_trans. by eapply Hnd. }
  pose proof (binsearch_bounds a (Fin k) (length a) 0 (length a)) as Hb.
  destruct (binsearch_lower_bound a (Fin k) Hfirst (length a) 0 (length a))
    as [Hlo Hhi]; [lia | lia | intros; lia | |].
  { intros i x Hi Hx. apply lookup_lt_Some in Hx. lia. }
  split; [lia|]. split.
  - intros i x Hi Hx. rewrite <- np_less_finite. eapply Hlo; [|done]. lia.
  - intros i x Hi Hx. apply not_flt_fle; [by eapply Hnd|].
    rewrite <- np_less_finite. eapply Hhi; [|done]. lia.
Qed.

Lemma getitem_lookup {A} (a : list A) (i : Z) :
  0 <= i < Z.of_nat (length a) -> getitem a i = a !! Z.to_nat i.
Proof.
  intros H. unfold getitem, index_pos.
  destruct (0 <=? i) eqn:H0; [|lia]. destruct (i <? Z.of_nat (length a)) eqn:H1; [|lia].
  done.
Qed.

Lemma getitem_last {A} (a : list A) :
  getitem a (-1) = getitem a (Z.of_nat (length a) - 1).
Proof.
  destruct a as [|x a]; [done|].
  unfold getitem, index_pos. generalize (length (x :: a)) (length_cons x a).
  intros n Hn. change (0 <=? -1) with false. cbv beta iota delta [andb].
  destruct (Z.leb_spec (- Z.of_nat n) (-1)); [|lia].
  destruct (Z.leb_spec 0 (Z.of_nat n - 1)); [|lia].
  destruct (Z.ltb_spec (Z.of_nat n - 1) (Z.of_nat n)); [|lia].
  change (-1 <? 0) with true. cbv iota. f_equal; lia.
Qed.

Lemma getitem_nil {A} (i : Z) : getitem (@nil A) i = None.
Proof.
  unfold getitem. by destruct (index_pos _ i).
Qed.

Lemma getitem_in_range (a : list float64) (i : Z) :
  in_unit_interval a -> 0 <= i < Z.of_nat (length a) ->
  ∃ q, getitem a i = Some (Fin q) ∧ a !! Z.to_nat i = Some (Fin q) ∧
       (0 <= q)%Q ∧ (q <= 1)%Q.
Proof.
  intros Hu Hi. rewrite getitem_lookup by done.
  destruct (lookup_lt_is_Some_2 a (Z.to_nat i)) as [x Hx]; [lia|].
  destruct (Hu x) as (q & -> & Hq); [by eapply list_elem_of_lookup_2|].
  by exists q.
Qed.

Lemma slice_to_length {A} (a : list A) (n : Z) :
  0 <= n <= Z.of_nat (length a) -> Z.of_nat (length (slice_to a n)) = n.
Proof.
  intros H. unfold slice_to. destruct (Z.leb_spec 0 n); [|lia].
  rewrite length_take. lia.
Qed.

Lemma range_length (n : Z) : 0 <= n -> Z.of_nat (length (range n)) = n.
Proof. intros H. unfold range. rewrite length_fmap, length_seq. lia. Qed.

Lemma cumsum_from_length (acc : float64) (a : list float64) :
  length (cumsum_from acc a) = length a.
Proof. revert acc. induction a as [|x a IH]; intros acc; simpl; [done|]. by rewrite IH. Qed.

Lemma cumsum_length (a : list float64) : length (cumsum a) = length a.
Proof. destruct a; simpl; [done|]. by rewrite cumsum_from_length. Qed.

(** The cut the variance spin computes is the smallest count that covers
    the percentage, or the length of the spectrum when none does. *)
Lemma variance_cut_smallest (cum : list float64) (p : Z) :
  cum ≠ [] -> nondecreasing cum ->
  let c := Z.min (searchsorted cum (percent p) + 1) (Z.of_nat (length cum)) in
  1 <= c <= Z.of_nat (length cum) ∧
  (∀ c', 1 <= c' < c -> covers cum p c' = false) ∧
  (covers cum p c = true ∨
   (c = Z.of_nat (length cum) ∧
    ∀ c', 1 <= c' <= Z.of_nat (length cum) -> covers cum p c' = false)).
Proof.
  intros Hne Hnd. cbv zeta.
  assert (Hkey : percent p = Fin (inject_Z p / 100)) by reflexivity.
  rewrite Hkey. unfold covers. rewrite Hkey.
  destruct (searchsorted_lower_bound cum (inject_Z p / 100) Hnd) as (Hr & Hlo & Hhi).
  set (r := searchsorted cum (Fin (inject_Z p / 100))) in *.
  assert (HL : 1 <= Z.of_nat (length cum)) by (destruct cum; [done | simpl; lia]).
  assert (Hbelow : ∀ c', 1 <= c' <= r -> c' <= Z.of_nat (length cum) ->
            match getitem cum (c' - 1) with
            | Some x => fle (Fin (inject_Z p / 100)) x
            | None => false
            end = false).
  { intros c' Hc' HcL. rewrite getitem_lookup by lia.
    destruct (cum !! Z.to_nat (c' - 1)) as [x|] eqn:Hx; [|done].
    apply flt_not_fle. eapply Hlo; [|done]. lia. }
  set (c := Z.min (r + 1) (Z.of_nat (length cum))).
  split; [lia|]. split.
  - intros c' Hc'. apply Hbelow; lia.
  - destruct (Z.eq_dec r (Z.of_nat (length cum))) as [Heq|Hlt].
    + right. split; [lia|]. intros c' Hc'. apply Hbelow; lia.
    + left. assert (Hc : c = r + 1) by lia. rewrite Hc, getitem_lookup by lia.
      destruct (lookup_lt_is_Some_2 cum (Z.to_nat (r + 1 - 1))) as [x Hx]; [lia|].
      rewrite Hx. eapply Hhi; [|done]. lia.
Qed.

Lemma is_nondecreasing_sound (a : list float64) :
  is_nondecreasing a = true -> nondecreasing a.
Proof.
  induction a as [|x r IH]; intros H i j u v Hij Hu Hv; [done|].
  simpl in H. apply andb_true_iff in H as [H Hr]. apply andb_true_iff in H as [Hx Hall].
  destruct i as [|i], j as [|j]; simpl in *; simplify_eq; try lia.
  - done.
  - rewrite forallb_forall in Hall. apply Hall.
    apply list_elem_of_In. by eapply list_elem_of_lookup_2.
  - eapply (IH Hr i j); [lia | done | done].
Qed.

(** ** The outputs of a commit *)

(** What a commit sends when a projection is fitted: the columns of the
    full transform selected by [ncomponents] itself, with the class and
    meta variables of the data, and the rows of the loadings selected the
    same way, labelled "PC1", "PC2", ... *)
Lemma commit_outputs (s : OWPCA) (m : PCAModel) (d : Table) :
  _pca s = Some m -> data s = Some d ->
  let full := default (transform m d) (_transformed s) in
  let nc := ncomponents s in
  ∃ s',
    commit s = Ok tt s' ∧
    Outputs s' =
      commit_signals
        (Some (from_table
                 (mkDomain (slice_to (attributes (domain full)) nc)
                           (class_vars (domain d)) (metas (domain d))) full))
        (Some (mkTable
                 (mkDomain ((λ a, ContinuousVariable (name a)) <$>
                              attributes (orig_domain m))
                           [] [StringVariable "component"])
                 (slice_to (components_ m) nc)
                 ((λ _, []) <$> slice_to (components_ m) nc)
                 ((λ i, [Str ("PC" +:+ pretty (i + 1))]) <$> range nc)
                 "components" false))
        (upd_component nc (_pca_projector s))
      ++ Outputs s.
Proof.
  intros Hm Hd. attributes_of s. subst. destruct tr_; by eexists.
Qed.


(** C1 at the "All" value: on the fitted example the count spin is set to
    0; the cut is at the 8 components of the spectrum and the cached full
    transform has 8 feature columns, yet the commit sends a transformed
    table without any feature column and a loadings table without any
    row. *)
Theorem commit_all_sends_no_components :
  let s := state_of (setByCount 0 ex_fitted) in
  ncomponents s = 0 ∧ cutpoint_x (plot s) = Some 8 ∧
  (∃ full, _transformed s = Some full ∧
           length (attributes (domain full)) = 8%nat) ∧
  ∃ t c p rest,
    Outputs s =
      Send_pca p :: Send_components (Some c)
        :: Send_transformed_data (Some t) :: rest ∧
    attributes (domain t) = [] ∧ X c = [] ∧ table_metas c = [].
Proof. evaluate. Qed.

(** ** The fit *)

Lemma installed_nonempty (s : OWPCA) (vr : list float64) :
  installed s vr -> cumsum vr ≠ [].
Proof.
  intros (_ & _ & _ & _ & q & Hq) Hnil. rewrite Hnil, getitem_nil in Hq. done.
Qed.


(** C8: when the last cumulative value of the fitted spectrum is not
    finite, [fit] returns with the warning raised and nothing installed
    (projection, cached transform, variance ratios and cumulative sequence
    are [None]), and its commit sends no transformed data, no components,
    and the projector. *)
Theorem fit_trivial_components (PCA_call : PCA -> Table -> PCAModel)
    (s : OWPCA) (d : Table) (x : float64) :
  data s = Some d -> is_SqlTable d = false ->
  getitem
    (cumsum (explained_variance_ratio_ (PCA_call (configured_projector s) d)))
    (-1) = Some x ->
  isfinite x = false ->
  ∃ s',
    fit PCA_call s = Ok tt s' ∧
    Warning_trivial_components s' = true ∧
    _pca s' = None ∧ _transformed s' = None ∧
    _variance_ratio s' = None ∧ _cumulative s' = None ∧
    Outputs s' = commit_signals None None (_pca_projector s') ++ Outputs s.
Proof.
  intros Hd Hsql Hlast Hx. attributes_of s. subst.
  destruct d as [dom x_ y_ m_ nm sql]. simpl in Hsql. subst sql.
  cbv beta iota zeta delta [is_SqlTable negb].
  rewrite Hlast. cbv beta iota zeta. rewrite Hx. cbv beta iota zeta.
  eexists. repeat split.
Qed.

Lemma fit_trivial_components_witness :
  ∃ s',
    fit ex_call (upd_data (Some (ex_table 3)) ex_new) = Ok tt s' ∧
    Warning_trivial_components s' = true ∧
    _pca s' = None ∧ _transformed s' = None ∧
    _variance_ratio s' = None ∧ _cumulative s' = None ∧
    Outputs s' =
      commit_signals None None (_pca_projector s')
        ++ Outputs (upd_data (Some (ex_table 3)) ex_new).
Proof.
  apply (fit_trivial_components ex_call (upd_data (Some (ex_table 3)) ex_new)
           (ex_table 3) NaN); vm_compute; reflexivity.
Defined.

(** ** Selection by variance *)



(** ** Selection by count *)






(** ** Without a fitted projection *)

(** C9: without a fitted projection the callback of the variance spin
    returns at once and leaves the widget as it is: a percentage entered in
    the box changes nothing but [variance_covered] itself, [ncomponents]
    is not modified, no cut point is set and nothing is sent; whereas a
    count entered in the other box still commits, and the commit sends the
    empty outputs and the projector. *)
Theorem no_projection_variance_spin_is_noop (s : OWPCA) (p n : Z) :
  _pca s = None ->
  _update_selection_variance_spin s = Ok tt s ∧
  setByVariance p s = Ok tt (upd_variance_covered p s) ∧
  ∃ s', setByCount n s = Ok tt s' ∧
        ncomponents s' = n ∧
        Outputs s' =
          commit_signals None None (upd_component n (_pca_projector s))
            ++ Outputs s.
Proof.
  intros Hpca. attributes_of s. subst pca_.
  repeat split. eexists. repeat split.
Qed.

Lemma no_projection_variance_spin_is_noop_witness :
  _update_selection_variance_spin ex_new = Ok tt ex_new ∧
  setByVariance 50 ex_new = Ok tt (upd_variance_covered 50 ex_new) ∧
  ∃ s', setByCount 3 ex_new = Ok tt s' ∧
        ncomponents s' = 3 ∧
        Outputs s' =
          commit_signals None None (upd_component 3 (_pca_projector ex_new))
            ++ Outputs ex_new.
Proof.
  apply (no_projection_variance_spin_is_noop ex_new 50 3).
  vm_compute. reflexivity.
Defined.

(** ** The count resolved without a user action *)

(** C2 on the fitted example with 8 components chosen: the stored
    percentage, 99, agrees with [floor(cumulative[7] * 100)], and the
    smallest count covering 99 percent is 7; [_nselected_components]
    nevertheless keeps 8 and returns it, since it compares the cumulative
    value with [floor(99 / 100.0)], which is 0. *)
Theorem resolveCount_keeps_count_when_percent_agrees :
  let s := state_of (setByCount 8 ex_fitted) in
  let cum := cumsum (halves 8) in
  _cumulative s = Some cum ∧ ncomponents s = 8 ∧ variance_covered s = 99 ∧
  getitem cum (8 - 1) = Some (Fin (255 # 256)) ∧
  Qfloor ((255 # 256) * 100) = 99 ∧
  covers cum 99 7 = true ∧
  Forall (λ c, covers cum 99 c = false) [1; 2; 3; 4; 5; 6] ∧
  floor (percent 99) = Fin 0 ∧
  ∃ s', resolveCount s = Ok 8 s' ∧
        ncomponents s' = 8 ∧ variance_covered s' = 99.
Proof. evaluate. Qed.

Lemma setByCount_in_range (s : OWPCA) (vr : list float64) (n : Z) :
  installed s vr -> in_unit_interval (cumsum vr) ->
  0 <= variance_covered s <= 100 ->
  0 <= n <= Z.of_nat (length (cumsum vr)) ->
  selection_in_range (length (cumsum vr)) (state_of (setByCount n s)).
Proof.
  intros Hin Hu Hvc Hn.
  pose proof (installed_nonempty s vr Hin) as Hne.
  destruct Hin as ([m Hm] & [d Hd] & Hvr & Hcum & _).
  assert (HL : 1 <= Z.of_nat (length (cumsum vr)))
    by (destruct (cumsum vr); [done | simpl; lia]).
  unfold selection_in_range. rewrite cumsum_length in *.
  attributes_of s. subst.
  destruct (Z.eqb_spec n 0) as [->|Hn0]; steps.
  - destruct (getitem_in_range (cumsum vr) (Z.of_nat (length vr) - 1) Hu)
      as (q & Hq & _ & Hq0 & Hq1); [rewrite cumsum_length; lia|].
    rewrite Hq. cbn [isfinite fmul of_int]. steps.
    pose proof (Qtrunc_percent_bounds q Hq0 Hq1).
    destruct tr_; steps; lia.
  - destruct (getitem_in_range (cumsum vr) (n - 1) Hu)
      as (q & Hq & _ & Hq0 & Hq1); [rewrite cumsum_length; lia|].
    rewrite Hq. cbn [isfinite fmul of_int]. steps.
    pose proof (Qtrunc_percent_bounds q Hq0 Hq1).
    destruct tr_; steps; lia.
Qed.

Lemma setByVariance_in_range (s : OWPCA) (vr : list float64) (p : Z) :
  installed s vr -> nondecreasing (cumsum vr) -> 1 <= p <= 100 ->
  selection_in_range (length (cumsum vr)) (state_of (setByVariance p s)).
Proof.
  intros Hin Hnd Hp.
  pose proof (variance_cut_smallest (cumsum vr) p (installed_nonempty s vr Hin) Hnd)
    as (Hc & _).
  destruct Hin as ([m Hm] & [d Hd] & Hvr & Hcum & _).
  unfold selection_in_range. attributes_of s. subst.
  fold (percent p) in *. destruct tr_; steps; lia.
Qed.

(** The two branches of [_nselected_components] on a spectrum of fractions
    whose value at the resolved count [mc] is not zero: the repaired
    percentage is a percentage, and the count derived from the stored
    percentage does not pass [mc]. *)
Lemma resolve_branches_in_range (cum : list float64) (mc vc : Z) (q : Q) :
  nondecreasing cum ->
  1 <= mc -> cum !! Z.to_nat (mc - 1) = Some (Fin q) ->
  (0 <= q)%Q -> (q <= 1)%Q -> 0 <= vc <= 100 ->
  feq (Fin q) (Fin 0) = false ->
  if fne (Fin q) (floor (percent vc))
  then 0 <= Qtrunc (q * inject_Z 100) <= 100
  else 1 <= searchsorted cum (percent vc) + 1 <= mc.
Proof.
  intros Hnd Hmc Hlk Hq0 Hq1 Hvc Hpos.
  destruct (fne (Fin q) (floor (percent vc))) eqn:Hcmp.
  - by apply Qtrunc_percent_bounds.
  - apply negb_false_iff in Hcmp.
    assert (Hkey : percent vc = Fin (inject_Z vc / 100)) by reflexivity.
    rewrite Hkey in *. cbn [floor] in Hcmp.
    rewrite Qfloor_percent in Hcmp by done.
    destruct (Z.eqb_spec vc 100) as [->|Hvc100];
      [|cbv beta iota delta [feq inject_Z] in Hcmp, Hpos; congruence].
    destruct (searchsorted_lower_bound cum (inject_Z 100 / 100) Hnd)
      as (Hr & Hlo & _).
    set (r := searchsorted cum (Fin (inject_Z 100 / 100))) in *.
    assert (r <= mc - 1); [|lia].
    destruct (Z_le_gt_dec r (mc - 1)) as [|Hgt]; [done|].
    assert (Hlt : flt (Fin q) (Fin (inject_Z 100 / 100)) = true)
      by (eapply (Hlo (Z.to_nat (mc - 1))); [lia | done]).
    cbn [flt] in Hlt. apply negb_true_iff in Hlt.
    cbn [feq] in Hcmp. apply Qeq_bool_iff in Hcmp.
    assert (Hle : Qle_bool (inject_Z 100 / 100) q = true).
    { apply Qle_bool_iff. rewrite Hcmp. discriminate. }
    congruence.
Qed.

(** Where the cumulative values are fractions and none is zero, the count
    resolved by [_nselected_components] stays in range. *)
Lemma resolveCount_in_range (s : OWPCA) (vr : list float64) :
  installed s vr -> nondecreasing (cumsum vr) ->
  in_unit_interval (cumsum vr) ->
  selection_in_range (length (cumsum vr)) s ->
  (∀ x, x ∈ cumsum vr -> feq x (Fin 0) = false) ->
  selection_in_range (length (cumsum vr)) (state_of (resolveCount s)).
Proof.
  intros Hin Hnd Hu [Hvc Hnc] Hpos.
  pose proof (installed_nonempty s vr Hin) as Hne.
  destruct Hin as ([m Hm] & [d Hd] & Hvr & Hcum & _).
  assert (HL : 1 <= Z.of_nat (length (cumsum vr)))
    by (destruct (cumsum vr); [done | simpl; lia]).
  unfold selection_in_range.
  assert (HLvr : length (cumsum vr) = length vr) by apply cumsum_length.
  attributes_of s. subst vr_ cum_ pca_ d_.
  destruct (Z.eqb_spec nc_ 0) as [->|Hn0]; steps.
  all: match goal with
       | |- context [getitem _ (?c - 1)] =>
           destruct (getitem_in_range (cumsum vr) (c - 1) Hu)
             as (q & Hq & Hlk & Hq0 & Hq1); [lia|];
           pose proof (resolve_branches_in_range (cumsum vr) c vc_ q Hnd
                         ltac:(lia) Hlk Hq0 Hq1 Hvc
                         (Hpos _ (list_elem_of_lookup_2 _ _ _ Hlk))) as Hbr
       end.
  all: rewrite Hq; steps; fold (percent vc_).
  all: destruct (fne (Fin q) (floor (percent vc_)));
    cbn [isfinite fmul of_int]; steps;
    change (fdiv (of_int vc_) (Fin 100)) with (percent vc_); lia.
Qed.

(** The three operations keep the selection in range on a fitted widget
    whose cumulative values are non-decreasing fractions, the count resolved
    without a user action under the further condition that no cumulative
    value is zero. *)
Lemma selection_stays_in_range (s : OWPCA) (vr : list float64) :
  installed s vr -> nondecreasing (cumsum vr) ->
  in_unit_interval (cumsum vr) ->
  selection_in_range (length (cumsum vr)) s ->
  (∀ n, 0 <= n <= Z.of_nat (length (cumsum vr)) ->
        selection_in_range (length (cumsum vr)) (state_of (setByCount n s))) ∧
  (∀ p, 1 <= p <= 100 ->
        selection_in_range (length (cumsum vr)) (state_of (setByVariance p s))) ∧
  ((∀ x, x ∈ cumsum vr -> feq x (Fin 0) = false) ->
   selection_in_range (length (cumsum vr)) (state_of (resolveCount s))).
Proof.
  intros Hin Hnd Hu Hsel. split; [|split].
  - intros n Hn. apply setByCount_in_range; [done | done | apply Hsel | done].
  - intros p Hp. by apply setByVariance_in_range.
  - intros Hpos. by apply resolveCount_in_range.
Qed.

(** C3 on a spectrum of one zero ratio: after the fit of the two-row
    example and 50 entered in the variance spin, [ncomponents] is 1, the
    length of the spectrum, and [variance_covered] is 50;
    [_nselected_components] then sets [ncomponents] to 2, one more than
    the spectrum has: its search is not clamped to the length as the one of
    [_update_selection_variance_spin] is. *)
Theorem resolveCount_count_above_spectrum_length :
  let s := state_of (setByVariance 50 (ex_fit 2 ex_new)) in
  _cumulative s = Some [Fin 0] ∧ is_Some (_pca s) ∧
  ncomponents s = 1 ∧ variance_covered s = 50 ∧
  ∃ s', resolveCount s = Ok 2 s' ∧
        ncomponents s' = 2 ∧ variance_covered s' = 50.
Proof. evaluate. Qed.

(** ** The cached transform *)






(** ** Migration of the settings *)

Ltac run_settings :=
  cbv beta iota zeta delta
    [migrate_settings pop np_isfinite int_of gt_int is_Real require gets
     modify raise mbind mret ST_bind ST_ret state_of isfinite].

(** C10, as the claim has it, fails on a dictionary whose [ncomponents] is
    a text: the comparison with [MAX_COMPONENTS] raises, and the deprecated
    key [address] is still there. *)
Lemma migrate_settings_text_ncomponents :
  ∃ settings',
    migrate_settings None ex_settings_text = Raise TypeError settings' ∧
    settings' !! "address" = Some (PyStr "localhost").
Proof. eexists. split; vm_compute; reflexivity. Qed.

(** C10, as the code has it: on a dictionary whose [ncomponents], when
    present, is a number, and whose [variance_covered], when an integer,
    fits in 64 bits, [migrate_settings] returns; [variance_covered] is
    rewritten only when it is a real number (an integer stays, a boolean
    becomes 0 or 1, a finite float is truncated, a non-finite float becomes
    100) and is otherwise unchanged; [ncomponents] becomes 100 only when it
    is present and above 100; the four deprecated keys are removed; every
    other entry is unchanged. *)
Theorem migrate_settings_spec (version : option Z)
    (settings : gmap string PyVal) :
  (∀ z, settings !! "variance_covered" = Some (PyInt z) ->
        - 2 ^ 63 <= z < 2 ^ 64) ->
  (∀ v, settings !! "ncomponents" = Some v -> is_Real v = true) ->
  ∃ settings',
    migrate_settings version settings = Ok tt settings' ∧
    settings' !! "variance_covered" =
      migrated_variance_covered <$> settings !! "variance_covered" ∧
    settings' !! "ncomponents" =
      (λ v, if exceeds v MAX_COMPONENTS then PyInt MAX_COMPONENTS else v)
        <$> settings !! "ncomponents" ∧
    (∀ k, k ∈ removed_keys -> settings' !! k = None) ∧
    (∀ k, k ∉ removed_keys -> k ≠ "variance_covered" -> k ≠ "ncomponents" ->
          settings' !! k = settings !! k).
Proof.
  intros Hvc Hnc.
  assert (Hkeys : ∀ (m : gmap string PyVal) k,
            k ∉ removed_keys ->
            delete "auto_update"
              (delete "address"
                 (delete "batch_size" (delete "decomposition_idx" m))) !! k
            = m !! k).
  { intros m k Hk. unfold removed_keys in Hk.
    rewrite !lookup_delete_ne; [done | | | |]; intros <-; apply Hk;
      rewrite !elem_of_cons; auto 10. }
  assert (Hgone : ∀ (m : gmap string PyVal) k,
            k ∈ removed_keys ->
            delete "auto_update"
              (delete "address"
                 (delete "batch_size" (delete "decomposition_idx" m))) !! k
            = None).
  { intros m k Hk. unfold removed_keys in Hk.
    repeat (apply elem_of_cons in Hk as [->|Hk]);
      [| | | | by apply elem_of_nil in Hk];
      repeat first [by rewrite lookup_delete_eq | rewrite lookup_delete_ne by done]. }
  assert (Hvcin : "variance_covered" ∉ removed_keys).
  { intros H. repeat (apply elem_of_cons in H as [H|H]; [discriminate|]).
    by apply elem_of_nil in H. }
  assert (Hncin : "ncomponents" ∉ removed_keys).
  { intros H. repeat (apply elem_of_cons in H as [H|H]; [discriminate|]).
    by apply elem_of_nil in H. }
  assert (Hins : ∀ v, <["variance_covered":=v]> settings !! "ncomponents"
                      = settings !! "ncomponents")
    by (intros v; by rewrite lookup_insert_ne).
  run_settings.
  destruct (settings !! "variance_covered") as [vc|] eqn:Evc;
    [destruct vc as [z|b|[a| | |]|t|]|]; run_settings.
  all: try (destruct (Hvc z eq_refl) as [Hlo Hhi];
            apply Z.leb_le in Hlo; apply Z.ltb_lt in Hhi;
            rewrite Hlo, Hhi; cbv beta iota zeta delta [andb]).
  all: rewrite ?Hins.
  all: destruct (settings !! "ncomponents") as [nc|] eqn:Enc;
    [pose proof (Hnc nc eq_refl) as Hreal;
     destruct nc as [n|c|y|u|]; try discriminate Hreal|].
  all: cbv beta iota zeta delta [from_option id exceeds fmap option_fmap option_map].
  all: try (match goal with
            | |- context [if ?b then _ else _] => destruct b eqn:Hb
            end).
  all: try (vm_compute in Hb; discriminate Hb).
  all: eexists; (split; [reflexivity|]).
  all: cbv beta iota delta [migrated_variance_covered].
  all: assert (Hk1' : ∀ k : string, k ≠ "variance_covered" -> "variance_covered" ≠ k)
         by (intros k ? ?; by subst).
  all: assert (Hk2' : ∀ k : string, k ≠ "ncomponents" -> "ncomponents" ≠ k)
         by (intros k ? ?; by subst).
  all: split;
    [rewrite Hkeys by done;
     repeat first [rewrite lookup_insert_eq | rewrite lookup_insert_ne by done];
     rewrite ?Evc; reflexivity|].
  all: split;
    [rewrite Hkeys by done;
     repeat first [rewrite lookup_insert_eq | rewrite lookup_insert_ne by done];
     rewrite ?Enc; reflexivity|].
  all: split; [intros k Hk; by apply Hgone|].
  all: intros k Hk Hk1 Hk2; rewrite Hkeys by done.
  all: rewrite ?lookup_insert_ne by auto.
  all: done.
Qed.

Lemma migrate_settings_spec_witness :
  ∃ settings',
    migrate_settings None ex_settings = Ok tt settings' ∧
    settings' !! "variance_covered" =
      migrated_variance_covered <$> ex_settings !! "variance_covered" ∧
    settings' !! "ncomponents" =
      (λ v, if exceeds v MAX_COMPONENTS then PyInt MAX_COMPONENTS else v)
        <$> ex_settings !! "ncomponents" ∧
    (∀ k, k ∈ removed_keys -> settings' !! k = None) ∧
    (∀ k, k ∉ removed_keys -> k ≠ "variance_covered" -> k ≠ "ncomponents" ->
          settings' !! k = ex_settings !! k).
Proof.
  apply (migrate_settings_spec None ex_settings).
  - intros z H. vm_compute in H. discriminate H.
  - intros v H. vm_compute in H. injection H as <-. reflexivity.
Defined.

(** ** More on the commit *)

(** A slice up to a count that is not negative takes that many elements. *)
Lemma slice_to_take {A} (a : list A) (n : Z) :
  0 <= n -> slice_to a n = take (Z.to_nat n) a.
Proof. intros H. unfold slice_to. by destruct (Z.leb_spec 0 n); [|lia]. Qed.

Lemma range_lookup (n : Z) (k : nat) :
  Z.of_nat k < n -> range n !! k = Some (Z.of_nat k).
Proof.
  intros H. unfold range. rewrite list_lookup_fmap.
  rewrite lookup_seq_lt by lia. done.
Qed.


(** X2: with a projection kept and [ncomponents] between 0 and the number
    of components of the projection, [commit] sends a transformed table
    whose attributes are the first [ncomponents] attributes of the full
    transform, with the class variables and metas of the data, and a
    components table with the first [ncomponents] rows of the loadings, one
    continuous attribute per original attribute, and one meta column
    [component] that labels row [k] as [PC(k+1)]. *)
Theorem commit_selects_first_components (s : OWPCA) (m : PCAModel) (d : Table) :
  _pca s = Some m -> data s = Some d ->
  0 <= ncomponents s <= Z.of_nat (length (components_ m)) ->
  let full := default (transform m d) (_transformed s) in
  let n := Z.to_nat (ncomponents s) in
  ∃ s' t c,
    commit s = Ok tt s' ∧
    Outputs s' = commit_signals (Some t) (Some c) (_pca_projector s') ++ Outputs s ∧
    attributes (domain t) = take n (attributes (domain full)) ∧
    class_vars (domain t) = class_vars (domain d) ∧
    metas (domain t) = metas (domain d) ∧
    X c = take n (components_ m) ∧ length (X c) = n ∧
    length (table_metas c) = n ∧
    (∀ k, (k < n)%nat ->
          table_metas c !! k = Some [Str ("PC" +:+ pretty (Z.of_nat k + 1))]) ∧
    attributes (domain c) =
      (λ a, ContinuousVariable (name a)) <$> attributes (orig_domain m) ∧
    metas (domain c) = [StringVariable "component"].
Proof.
  intros Hm Hd Hn. cbv zeta.
  destruct (commit_outputs s m d Hm Hd) as (s' & Hc & Hout).
  cbv zeta in Hout. rewrite !slice_to_take in Hout by lia.
  assert (Hproj : _pca_projector s' =
                  upd_component (ncomponents s) (_pca_projector s)).
  { revert Hc. attributes_of s. subst. destruct tr_; intros [= <-]; done. }
  do 3 eexists. split; [exact Hc|]. split; [rewrite Hproj; exact Hout|].
  cbn [domain attributes class_vars metas X table_metas from_table].
  repeat split.
  - rewrite length_take. lia.
  - rewrite length_fmap. pose proof (range_length (ncomponents s)). lia.
  - intros k Hk. rewrite list_lookup_fmap, range_lookup by lia. done.
Qed.

Lemma commit_selects_first_components_witness :
  let s := upd_ncomponents 3 ex_fitted in
  ∃ s' t c,
    commit s = Ok tt s' ∧
    Outputs s' = commit_signals (Some t) (Some c) (_pca_projector s') ++ Outputs s ∧
    attributes (domain t) =
      take 3 (attributes (domain (default (transform (ex_model (halves 8)) (ex_table 9))
                                          (_transformed s)))) ∧
    class_vars (domain t) = class_vars (domain (ex_table 9)) ∧
    metas (domain t) = metas (domain (ex_table 9)) ∧
    X c = take 3 (components_ (ex_model (halves 8))) ∧ length (X c) = 3%nat ∧
    length (table_metas c) = 3%nat ∧
    (∀ k, (k < 3)%nat ->
          table_metas c !! k = Some [Str ("PC" +:+ pretty (Z.of_nat k + 1))]) ∧
    attributes (domain c) =
      (λ a, ContinuousVariable (name a)) <$>
        attributes (orig_domain (ex_model (halves 8))) ∧
    metas (domain c) = [StringVariable "component"].
Proof.
  apply (commit_selects_first_components (upd_ncomponents 3 ex_fitted)
           (ex_model (halves 8)) (ex_table 9)).
  - vm_compute. reflexivity.
  - vm_compute. reflexivity.
  - vm_compute. split; discriminate.
Defined.

(** ** The cache and the data *)

(** The events and the fit keep the cache coherent. *)
Lemma handle_cache_coherent (e : Event) (s : OWPCA) (r : Res OWPCA unit) :
  handle e s = r -> cache_coherent s -> cache_coherent (state_of r).
Proof.
  unfold cache_coherent. intros H. revert H. destruct e; attributes_of s.
  all: split_all.
  all: intros <- Hs t1 Ht1; steps; simplify_eq; try (by eauto).
Qed.

Lemma fit_cache_coherent PCA_call (s : OWPCA) (r : Res OWPCA unit) :
  fit PCA_call s = r -> cache_coherent (state_of r).
Proof.
  unfold cache_coherent. intros H. revert H. attributes_of s.
  all: split_all.
  all: intros <- t1 Ht1; steps; simplify_eq; try (by eauto).
Qed.

(** X3: after a fit and any sequence of events, whatever they raised, a
    cached transform is the transform of the data the widget holds by the
    projection it holds. *)
Theorem cache_holds_transform_of_current_data
    (PCA_call : PCA -> Table -> PCAModel) (s : OWPCA) (es : list Event) :
  cache_coherent (run es (state_of (fit PCA_call s))).
Proof.
  pose proof (fit_cache_coherent PCA_call s _ eq_refl) as H. revert H.
  generalize (state_of (fit PCA_call s)). clear s.
  induction es as [|e es IH]; intros s Hs; simpl; [done|].
  apply IH. exact (handle_cache_coherent e s _ eq_refl Hs).
Qed.


(** After a fit a projection is kept only with data. *)
Lemma fit_projection_has_data PCA_call (s : OWPCA) (r : Res OWPCA unit) :
  fit PCA_call s = r -> is_Some (_pca (state_of r)) -> is_Some (data (state_of r)).
Proof.
  intros H. revert H. attributes_of s.
  all: split_all.
  all: intros <-; steps; try done; by intros [? ?].
Qed.


(** ** More on the fit *)




(** What a fit leaves alone, and the preprocessors it sets. *)
Lemma fit_frame (PCA_call : PCA -> Table -> PCAModel) (s : OWPCA)
    (r : Res OWPCA unit) :
  fit PCA_call s = r ->
  data (state_of r) = data s ∧ normalize (state_of r) = normalize s ∧
  _pca_preprocessors (state_of r) = _pca_preprocessors s ∧
  (is_Some (data s) ->
   preprocessors (_pca_projector (state_of r)) =
     if normalize s then _pca_preprocessors s ++ [Normalize false]
     else _pca_preprocessors s).
Proof.
  intros H. revert H. attributes_of s.
  all: split_all.
  all: intros <-; steps; repeat split; try done; by intros [? ?].
Qed.

(** X6: a fit sets the preprocessors of the projector from
    [_pca_preprocessors], which it does not change: fitting again leaves
    the same preprocessors, and the normalisation is not added a second
    time. *)
Theorem fit_does_not_accumulate_preprocessors
    (PCA_call : PCA -> Table -> PCAModel) (s : OWPCA) (d : Table) :
  data s = Some d ->
  let s1 := state_of (fit PCA_call s) in
  let s2 := state_of (fit PCA_call s1) in
  preprocessors (_pca_projector s1) =
    (if normalize s then _pca_preprocessors s ++ [Normalize false]
     else _pca_preprocessors s) ∧
  preprocessors (_pca_projector s2) = preprocessors (_pca_projector s1) ∧
  _pca_preprocessors s2 = _pca_preprocessors s.
Proof.
  intros Hd. cbv zeta.
  destruct (fit_frame PCA_call s _ eq_refl) as (Hd1 & Hn1 & Hp1 & Hpre1).
  destruct (fit_frame PCA_call (state_of (fit PCA_call s)) _ eq_refl)
    as (Hd2 & Hn2 & Hp2 & Hpre2).
  revert Hd1 Hn1 Hp1 Hpre1 Hd2 Hn2 Hp2 Hpre2.
  generalize (state_of (fit PCA_call (state_of (fit PCA_call s)))).
  generalize (state_of (fit PCA_call s)).
  intros s1 s2 Hd1 Hn1 Hp1 Hpre1 Hd2 Hn2 Hp2 Hpre2.
  rewrite Hpre1 by (by rewrite Hd). split; [done|].
  rewrite Hpre2 by (rewrite Hd1, Hd; by eexists).
  rewrite Hn1, Hp1. split; [done|]. congruence.
Qed.

Lemma fit_does_not_accumulate_preprocessors_witness :
  let s1 := state_of (fit ex_call ex_fitted) in
  let s2 := state_of (fit ex_call s1) in
  preprocessors (_pca_projector s1) =
    (if normalize ex_fitted then _pca_preprocessors ex_fitted ++ [Normalize false]
     else _pca_preprocessors ex_fitted) ∧
  preprocessors (_pca_projector s2) = preprocessors (_pca_projector s1) ∧
  _pca_preprocessors s2 = _pca_preprocessors ex_fitted.
Proof.
  apply (fit_does_not_accumulate_preprocessors ex_call ex_fitted (ex_table 9)).
  vm_compute. reflexivity.
Defined.

(** X7: without data, [fit] clears the projection, the cache, the spectrum,
    the warning and the plot, leaves the projector alone and sends nothing;
    [_update_normalize] then commits: no tables, and the projector with
    [component] set to [ncomponents]. *)
Theorem no_data_fit_sends_nothing (PCA_call : PCA -> Table -> PCAModel)
    (s : OWPCA) :
  data s = None ->
  (∃ s', fit PCA_call s = Ok tt s' ∧
         _pca s' = None ∧ _transformed s' = None ∧
         _variance_ratio s' = None ∧ _cumulative s' = None ∧
         Warning_trivial_components s' = false ∧
         cutpoint_x (plot s') = None ∧ curves (plot s') = None ∧
         Outputs s' = Outputs s ∧ _pca_projector s' = _pca_projector s) ∧
  (∃ s', _update_normalize PCA_call s = Ok tt s' ∧
         _pca s' = None ∧
         Outputs s' =
           commit_signals None None
             (upd_component (ncomponents s) (_pca_projector s)) ++ Outputs s).
Proof.
  intros Hd. attributes_of s. subst. split; eexists; repeat split.
Qed.

Lemma no_data_fit_sends_nothing_witness :
  (∃ s', fit ex_call ex_new = Ok tt s' ∧
         _pca s' = None ∧ _transformed s' = None ∧
         _variance_ratio s' = None ∧ _cumulative s' = None ∧
         Warning_trivial_components s' = false ∧
         cutpoint_x (plot s') = None ∧ curves (plot s') = None ∧
         Outputs s' = Outputs ex_new ∧ _pca_projector s' = _pca_projector ex_new) ∧
  (∃ s', _update_normalize ex_call ex_new = Ok tt s' ∧
         _pca s' = None ∧
         Outputs s' =
           commit_signals None None
             (upd_component (ncomponents ex_new) (_pca_projector ex_new))
             ++ Outputs ex_new).
Proof.
  apply (no_data_fit_sends_nothing ex_call ex_new).
  vm_compute. reflexivity.
Defined.

(** A running sum that is not finite stays so. *)
Lemma fadd_nonfinite (acc x : float64) :
  isfinite acc = false -> isfinite (fadd acc x) = false.
Proof. by destruct acc, x. Qed.

Lemma cumsum_from_finite (acc : float64) (a : list float64) (q : Q) :
  last (acc :: cumsum_from acc a) = Some (Fin q) ->
  isfinite acc = true ∧ Forall (λ x, isfinite x = true) (cumsum_from acc a).
Proof.
  revert acc. induction a as [|x r IH]; intros acc H.
  - simpl in H. injection H as ->. by split.
  - cbn [cumsum_from] in *. cbv zeta in *.
    change (last (fadd acc x :: cumsum_from (fadd acc x) r) = Some (Fin q)) in H.
    destruct (IH _ H) as [Hacc' Hr]. split.
    + destruct (isfinite acc) eqn:E; [done|].
      by rewrite (fadd_nonfinite acc x E) in Hacc'.
    + by constructor.
Qed.

(** When the last running sum is finite, every running sum is. *)
Lemma cumsum_finite (a : list float64) (q : Q) :
  getitem (cumsum a) (-1) = Some (Fin q) ->
  Forall (λ x, isfinite x = true) (cumsum a).
Proof.
  intros H. destruct a as [|x r]; [constructor|].
  rewrite getitem_last, getitem_lookup in H
    by (cbn [cumsum length]; lia).
  replace (Z.to_nat (Z.of_nat (length (cumsum (x :: r))) - 1))
    with (pred (length (cumsum (x :: r)))) in H by lia.
  rewrite <- last_lookup in H. cbn [cumsum] in *.
  destruct (cumsum_from_finite x r q H) as [Hx Hr]. by constructor.
Qed.


(** On a fitted widget every cumulative value is a finite number. *)
Lemma installed_getitem (s : OWPCA) (vr : list float64) (i : Z) :
  installed s vr -> 0 <= i < Z.of_nat (length vr) ->
  ∃ q, getitem (cumsum vr) i = Some (Fin q).
Proof.
  intros (_ & _ & _ & _ & q & Hq) Hi.
  pose proof (cumsum_finite vr q Hq) as Hall.
  rewrite getitem_lookup by (rewrite cumsum_length; lia).
  destruct (lookup_lt_is_Some_2 (cumsum vr) (Z.to_nat i)) as [x Hx];
    [rewrite cumsum_length; lia|].
  rewrite Forall_lookup in Hall. specialize (Hall _ _ Hx).
  destruct x; try done. by eexists.
Qed.

Lemma installed_length (s : OWPCA) (vr : list float64) :
  installed s vr -> 1 <= Z.of_nat (length vr).
Proof.
  intros H. pose proof (installed_nonempty s vr H) as Hne.
  destruct vr; [done | simpl; lia].
Qed.


(** Running a method along one path: the known subscripts and tests are
    rewritten, the rest is unfolded. *)
Ltac drive :=
  repeat first
    [ progress steps
    | progress change (0 =? 0) with true
    | progress cbn [negb andb isfinite fmul of_int]
    | rewrite Z.eqb_refl
    | match goal with
      | H : getitem ?a ?i = _ |- context [getitem ?a ?i] => rewrite H
      | H : (?x =? ?y) = _ |- context [?x =? ?y] => rewrite H
      end ].



(** X9: a new widget has sent one commit: no tables, and a projector with
    100 components, [component] 2 and the preprocessors of the class; the
    normalisation is not among them although [normalize] is on, since
    [fit] returns before it configures the projector when there is no
    data. *)
Theorem init_sends_unconfigured_projector (PCA_call : PCA -> Table -> PCAModel)
    (PCA_preprocessors : list Preprocessor) :
  let s := __init__ PCA_call PCA_preprocessors in
  Outputs s =
    commit_signals None None (mkPCA MAX_COMPONENTS 0 2 PCA_preprocessors) ∧
  normalize s = true ∧
  preprocessors (_pca_projector s) = PCA_preprocessors ∧
  _pca_preprocessors s = PCA_preprocessors ∧
  data s = None ∧ _pca s = None ∧ _transformed s = None ∧
  ncomponents s = 2 ∧ variance_covered s = 100 ∧
  components_spin s = (1, MAX_COMPONENTS) ∧
  curves (plot s) = None ∧ cutpoint_x (plot s) = None.
Proof. cbv zeta. repeat split. Qed.

(** ** The controls of a fitted widget *)

(** X10: on a fitted widget, a count above the length of the spectrum makes
    the callback of the count spin box raise [IndexError] at
    [self._cumulative[cut - 1]]: the count is stored, nothing else has
    changed, and nothing is sent. *)
Theorem setByCount_beyond_spectrum_raises (s : OWPCA) (vr : list float64)
    (n : Z) :
  installed s vr -> Z.of_nat (length (cumsum vr)) < n ->
  setByCount n s = Raise IndexError (upd_ncomponents n s).
Proof.
  intros ([m Hm] & [d Hd] & Hvr & Hcum & _) Hn.
  attributes_of s. subst.
  destruct (Z.eqb_spec n 0) as [->|Hn0]; [lia|].
  assert (Hget : getitem (cumsum vr) (n - 1) = None).
  { unfold getitem, index_pos.
    destruct (Z.leb_spec 0 (n - 1)); [|lia].
    destruct (Z.ltb_spec (n - 1) (Z.of_nat (length (cumsum vr)))); [lia|].
    destruct (Z.leb_spec (- Z.of_nat (length (cumsum vr))) (n - 1)); [|lia].
    destruct (Z.ltb_spec (n - 1) 0); [lia|]. done. }
  by rewrite Hget.
Qed.

Lemma setByCount_beyond_spectrum_raises_witness :
  setByCount 9 ex_fitted = Raise IndexError (upd_ncomponents 9 ex_fitted).
Proof.
  apply (setByCount_beyond_spectrum_raises ex_fitted (halves 8) 9).
  - repeat split; try (eexists; vm_compute; reflexivity); vm_compute; reflexivity.
  - vm_compute. reflexivity.
Defined.

(** X11: on a fitted widget whose count is in the range of the spin box,
    [_nselected_components] returns a count of at least 1 (its assertion
    holds, since every running sum is finite when the last one is), changes
    [ncomponents] at most to the count it returns, and neither sends
    anything nor touches the plot, the cache or the projection. *)
Theorem resolveCount_returns_in_spin_range (s : OWPCA) (vr : list float64) :
  installed s vr ->
  0 <= ncomponents s <= Z.of_nat (length (cumsum vr)) ->
  ∃ n s',
    resolveCount s = Ok n s' ∧ 1 <= n ∧
    (ncomponents s' = ncomponents s ∨ ncomponents s' = n) ∧
    Outputs s' = Outputs s ∧ plot s' = plot s ∧
    _transformed s' = _transformed s ∧ _pca s' = _pca s.
Proof.
  intros Hin Hn. rewrite cumsum_length in Hn.
  pose proof (installed_length s vr Hin) as HL.
  assert (Hget : ∃ q, getitem (cumsum vr)
                   ((if ncomponents s =? 0 then Z.of_nat (length vr)
                     else ncomponents s) - 1) = Some (Fin q)).
  { apply (installed_getitem s vr _ Hin).
    destruct (Z.eqb_spec (ncomponents s) 0); lia. }
  destruct Hget as [q Hq].
  destruct Hin as ([m Hm] & [d Hd] & Hvr & Hcum & _).
  attributes_of s. subst.
  destruct (Z.eqb_spec nc_ 0) as [->|Hnc]; drive.
  all: match goal with
       | |- context [if ?b then _ else _] => destruct b
       end; drive.
  all: do 2 eexists; (split; [reflexivity|]); repeat split; auto; try lia.
  all: unfold searchsorted; lia.
Qed.

Lemma resolveCount_returns_in_spin_range_witness :
  ∃ n s',
    resolveCount ex_fitted = Ok n s' ∧ 1 <= n ∧
    (ncomponents s' = ncomponents ex_fitted ∨ ncomponents s' = n) ∧
    Outputs s' = Outputs ex_fitted ∧ plot s' = plot ex_fitted ∧
    _transformed s' = _transformed ex_fitted ∧ _pca s' = _pca ex_fitted.
Proof.
  apply (resolveCount_returns_in_spin_range ex_fitted (halves 8)).
  - repeat split; try (eexists; vm_compute; reflexivity); vm_compute; reflexivity.
  - vm_compute. split; discriminate.
Defined.







(** On a non-decreasing array the position found grows with the key. *)
Lemma searchsorted_monotone (a : list float64) (k1 k2 : Q) :
  nondecreasing a -> (k1 <= k2)%Q ->
  searchsorted a (Fin k1) <= searchsorted a (Fin k2).
Proof.
  intros Hnd Hk.
  destruct (searchsorted_lower_bound a k1 Hnd) as (Hr1 & Hlo1 & _).
  destruct (searchsorted_lower_bound a k2 Hnd) as (Hr2 & _ & Hhi2).
  set (r1 := searchsorted a (Fin k1)) in *.
  set (r2 := searchsorted a (Fin k2)) in *.
  destruct (Z_le_gt_dec r1 r2) as [|Hgt]; [done|].
  destruct (lookup_lt_is_Some_2 a (Z.to_nat r2)) as [x Hx]; [lia|].
  assert (H1 : flt x (Fin k1) = true) by (eapply Hlo1; [|done]; lia).
  assert (H2 : fle (Fin k2) x = true) by (eapply Hhi2; [|done]; lia).
  destruct x as [b| | |]; simpl in H1, H2; try done.
  apply negb_true_iff in H1. apply Qle_bool_iff in H2.
  assert (Qle_bool k1 b = true); [|congruence].
  apply Qle_bool_iff. by eapply Qle_trans.
Qed.

Lemma percent_le (p1 p2 : Z) :
  p1 <= p2 -> (inject_Z p1 / 100 <= inject_Z p2 / 100)%Q.
Proof.
  intros H. apply Qmult_le_compat_r; [by rewrite <- Zle_Qle | discriminate].
Qed.

(** What the variance spin box does on a fitted widget. *)
Lemma setByVariance_count (s : OWPCA) (vr : list float64) (p : Z) :
  installed s vr ->
  ∃ s' t c,
    setByVariance p s = Ok tt s' ∧
    ncomponents s' =
      Z.min (searchsorted (cumsum vr) (percent p) + 1)
            (Z.of_nat (length (cumsum vr))) ∧
    cutpoint_x (plot s') = Some (ncomponents s') ∧
    variance_covered s' = p ∧
    component (_pca_projector s') = ncomponents s' ∧
    Outputs s' =
      commit_signals (Some t) (Some c) (_pca_projector s') ++ Outputs s ∧
    installed s' vr.
Proof.
  intros ([m Hm] & [d Hd] & Hvr & Hcum & Hq).
  attributes_of s. subst. fold (percent p).
  destruct tr_; steps.
  all: do 3 eexists; split; [reflexivity|]; repeat split; by eauto.
Qed.



(** X15: on non-decreasing cumulative values, a larger percentage never
    selects fewer components. *)
Theorem setByVariance_monotone (s : OWPCA) (vr : list float64) (p1 p2 : Z) :
  installed s vr -> nondecreasing (cumsum vr) -> p1 <= p2 ->
  ncomponents (state_of (setByVariance p1 s)) <=
    ncomponents (state_of (setByVariance p2 s)).
Proof.
  intros Hin Hnd Hp.
  destruct (setByVariance_count s vr p1 Hin) as (s1 & ? & ? & -> & Hn1 & _).
  destruct (setByVariance_count s vr p2 Hin) as (s2 & ? & ? & -> & Hn2 & _).
  cbn [state_of]. rewrite Hn1, Hn2.
  pose proof (searchsorted_monotone (cumsum vr) _ _ Hnd (percent_le p1 p2 Hp)) as H.
  change (Fin (inject_Z p1 / 100)) with (percent p1) in H.
  change (Fin (inject_Z p2 / 100)) with (percent p2) in H.
  lia.
Qed.

Lemma setByVariance_monotone_witness :
  ncomponents (state_of (setByVariance 50 ex_fitted)) <=
    ncomponents (state_of (setByVariance 95 ex_fitted)).
Proof.
  apply (setByVariance_monotone ex_fitted (halves 8) 50 95).
  - repeat split; try (eexists; vm_compute; reflexivity); vm_compute; reflexivity.
  - apply is_nondecreasing_sound. vm_compute. reflexivity.
  - lia.
Defined.




(** ** The plot *)

(** The elements of [range(start, stop, step)], its first element and its
    length. *)
Lemma range_step_bounds (start stop step : Z) :
  0 < step -> Forall (λ i, start <= i < stop) (range_step start stop step).
Proof.
  intros Hstep. unfold range_step. rewrite Forall_fmap. apply Forall_forall.
  intros k Hk. apply elem_of_seq in Hk. simpl.
  pose proof (Z.mul_div_le (stop - start + step - 1) step Hstep).
  assert (Z.of_nat k + 1 <= (stop - start + step - 1) / step) by lia.
  nia.
Qed.

Lemma range_step_head (start stop step : Z) :
  0 < step -> start < stop -> head (range_step start stop step) = Some start.
Proof.
  intros Hstep Hlt. unfold range_step.
  assert (H : 1 <= (stop - start + step - 1) / step).
  { apply Z.div_le_lower_bound; lia. }
  destruct (Z.to_nat ((stop - start + step - 1) / step)) as [|n] eqn:E; [lia|].
  simpl. f_equal. lia.
Qed.

Lemma range_step_length (start stop step : Z) :
  0 < step -> start <= stop ->
  Z.of_nat (length (range_step start stop step)) = (stop - start + step - 1) / step.
Proof.
  intros Hstep Hle. unfold range_step. rewrite length_fmap, length_seq.
  assert (0 <= (stop - start + step - 1) / step)
    by (apply Z.div_pos; lia).
  lia.
Qed.

(** The number of positions labelled: with [k] the number of labels asked
    for less one, at most [2 k]. *)
Lemma ticks_count (p k : Z) :
  1 <= p -> 1 <= k ->
  let d := Z.max ((p - 1) / k) 1 in
  (p + 1 - 1 + d - 1) / d <= 2 * k.
Proof.
  intros Hp Hk d.
  assert (Hd : 1 <= d) by lia.
  assert (Hm : p - 1 < k * Z.succ ((p - 1) / k))
    by (apply Z.mul_succ_div_gt; lia).
  assert (H0 : 0 <= (p - 1) / k) by (apply Z.div_pos; lia).
  assert (Hlt : (p + 1 - 1 + d - 1) / d < 2 * k + 1); [|lia].
  apply Z.div_lt_upper_bound; [lia|].
  destruct (Z.max_spec ((p - 1) / k) 1) as [[? Heq]|[? Heq]];
    fold d in Heq; rewrite Heq; nia.
Qed.

(** X17: [_update_axis] raises [ZeroDivisionError] when [axis_labels] is 1
    and changes nothing then; otherwise it only replaces the ticks of the
    plot: every tick is at a position from 1 to [p = min(length, maxp)] and
    is labelled with its position, the first tick is at 1, there is none
    when [p] is not positive, and for [axis_labels >= 2] there are at most
    [2 * (axis_labels - 1)] of them. *)
Theorem update_axis_ticks (s : OWPCA) (vr : list float64) :
  _variance_ratio s = Some vr ->
  let p := Z.min (Z.of_nat (length vr)) (maxp s) in
  if axis_labels s =? 1 then _update_axis s = Raise ZeroDivisionError s
  else
    ∃ s', _update_axis s = Ok tt s' ∧
          s' = upd_plot (upd_ticks (ticks (plot s')) (plot s)) s ∧
          Forall (λ t, 1 <= t.1 <= p ∧ t.2 = pretty t.1) (ticks (plot s')) ∧
          (1 <= p -> head (ticks (plot s')) = Some (1, pretty 1)) ∧
          (p <= 0 -> ticks (plot s') = []) ∧
          (2 <= axis_labels s ->
           Z.of_nat (length (ticks (plot s'))) <= 2 * (axis_labels s - 1)).
Proof.
  intros Hvr. cbv zeta. attributes_of s. subst.
  replace (al_ =? 1) with (al_ - 1 =? 0)
    by (destruct (Z.eqb_spec al_ 1), (Z.eqb_spec (al_ - 1) 0); lia || done).
  destruct (Z.eqb_spec (al_ - 1) 0) as [|Hal]; [done|].
  set (p := Z.min (Z.of_nat (length vr)) maxp_).
  set (d := Z.max ((p - 1) / (al_ - 1)) 1).
  assert (Hd : 0 < d) by (subst d; lia).
  eexists. split; [reflexivity|]. steps. split; [done|]. split; [|split; [|split]].
  - rewrite Forall_fmap. eapply Forall_impl; [apply (range_step_bounds 1 (p + 1) d Hd)|].
    intros i Hi. simpl in *. split; [lia | done].
  - intros Hp. destruct plot_. steps.
    pose proof (range_step_head 1 (p + 1) d Hd ltac:(lia)) as Hh.
    destruct (range_step 1 (p + 1) d); [done|]. simpl in *. by injection Hh as ->.
  - intros Hp. destruct plot_. steps. unfold range_step.
    assert (Hz : (p + 1 - 1 + d - 1) / d <= 0).
    { assert ((p + 1 - 1 + d - 1) / d < 1); [|lia].
      apply Z.div_lt_upper_bound; lia. }
    destruct (Z.to_nat ((p + 1 - 1 + d - 1) / d)) eqn:E; [done | lia].
  - intros Hal2. destruct plot_. steps. rewrite length_fmap.
    destruct (Z_le_gt_dec 1 p) as [Hp|Hp].
    + rewrite range_step_length by lia.
      apply (ticks_count p (al_ - 1)); lia.
    + unfold range_step. rewrite length_fmap, length_seq.
      assert (Hz : (p + 1 - 1 + d - 1) / d <= 0).
      { assert ((p + 1 - 1 + d - 1) / d < 1); [|lia].
        apply Z.div_lt_upper_bound; lia. }
      lia.
Qed.

Lemma update_axis_ticks_witness :
  let p := Z.min (Z.of_nat (length (halves 8))) (maxp ex_fitted) in
  if axis_labels ex_fitted =? 1
  then _update_axis ex_fitted = Raise ZeroDivisionError ex_fitted
  else
    ∃ s', _update_axis ex_fitted = Ok tt s' ∧
          s' = upd_plot (upd_ticks (ticks (plot s')) (plot ex_fitted)) ex_fitted ∧
          Forall (λ t, 1 <= t.1 <= p ∧ t.2 = pretty t.1) (ticks (plot s')) ∧
          (1 <= p -> head (ticks (plot s')) = Some (1, pretty 1)) ∧
          (p <= 0 -> ticks (plot s') = []) ∧
          (2 <= axis_labels ex_fitted ->
           Z.of_nat (length (ticks (plot s'))) <= 2 * (axis_labels ex_fitted - 1)).
Proof.
  apply (update_axis_ticks ex_fitted (halves 8)).
  vm_compute. reflexivity.
Defined.



(** ** Failure and repetition of the migration *)

(** The four removals, by key. *)
Lemma removed_keys_deleted (m : gmap string PyVal) (k : string) :
  k ∈ removed_keys ->
  delete "auto_update"
    (delete "address" (delete "batch_size" (delete "decomposition_idx" m))) !! k
  = None.
Proof.
  intros Hk. unfold removed_keys in Hk.
  repeat (apply elem_of_cons in Hk as [->|Hk]);
    [| | | | by apply elem_of_nil in Hk];
    repeat first [by rewrite lookup_delete_eq | rewrite lookup_delete_ne by done].
Qed.

Lemma other_keys_kept (m : gmap string PyVal) (k : string) :
  k ∉ removed_keys ->
  delete "auto_update"
    (delete "address" (delete "batch_size" (delete "decomposition_idx" m))) !! k
  = m !! k.
Proof.
  intros Hk. unfold removed_keys in Hk.
  rewrite !lookup_delete_ne; [done | | | |]; intros <-; apply Hk;
    rewrite !elem_of_cons; auto 10.
Qed.

Lemma setting_keys_not_removed :
  ("variance_covered" ∉ removed_keys) ∧ ("ncomponents" ∉ removed_keys).
Proof.
  split; intros H.
  all: repeat (apply elem_of_cons in H as [H|H]; [discriminate|]).
  all: by apply elem_of_nil in H.
Qed.

(** When [migrate_settings] raises, the dictionary still has every key it
    had, the deprecated ones included. *)
Lemma migrate_settings_raise (version : option Z)
    (settings : gmap string PyVal) (r : Res (gmap string PyVal) unit) :
  migrate_settings version settings = r ->
  ∀ e settings', r = Raise e settings' ->
  e = TypeError ∧
  ((∃ z, settings !! "variance_covered" = Some (PyInt z) ∧
         ¬ (- 2 ^ 63 <= z < 2 ^ 64) ∧ settings' = settings) ∨
   (∃ v, settings !! "ncomponents" = Some v ∧ is_Real v = false ∧
         settings' !! "variance_covered" =
           migrated_variance_covered <$> settings !! "variance_covered")) ∧
  (∀ k, k ≠ "variance_covered" -> settings' !! k = settings !! k).
Proof.
  assert (Hins : ∀ v, <["variance_covered":=v]> settings !! "ncomponents"
                      = settings !! "ncomponents")
    by (intros v; by rewrite lookup_insert_ne).
  intros <-. run_settings.
  destruct (settings !! "variance_covered") as [vc|] eqn:Evc;
    [destruct vc as [z|b|[a| | |]|t|]|]; run_settings.
  all: try (destruct ((- 2 ^ 63 <=? z) && (z <? 2 ^ 64)) eqn:Hfit;
            cbv beta iota zeta;
            [|intros e settings' [= <- <-]; split; [done|]; split; [|done];
              left; exists z; repeat split; try done;
              intros [Hlo Hhi]; apply Z.leb_le in Hlo; apply Z.ltb_lt in Hhi;
              by rewrite Hlo, Hhi in Hfit]).
  all: rewrite ?Hins.
  all: destruct (settings !! "ncomponents") as [nc|] eqn:Enc;
    [destruct nc as [n|c|y|u|]|].
  all: cbv beta iota zeta delta [from_option id].
  all: try (match goal with
            | |- context [if ?b then _ else _] => destruct b eqn:Hb
            end).
  all: try (vm_compute in Hb; discriminate Hb).
  all: intros e settings' Hr; try discriminate Hr.
  all: injection Hr as <- <-; split; [done|].
  all: (split; [right; eexists; split; [reflexivity|]; split; [done|];
                rewrite ?lookup_insert_eq, ?Evc; reflexivity|]).
  all: intros k Hk; rewrite ?lookup_insert_ne by (intros ?; by subst); done.
Qed.

(** X19: [migrate_settings] raises nothing but [TypeError], and only for an
    integer [variance_covered] outside 64 bits (the dictionary is then
    unchanged) or for an [ncomponents] that is no number
    ([variance_covered] is then already rewritten); in both cases every
    other entry, the deprecated keys included, is still there. *)
Theorem migrate_settings_raises_only_TypeError (version : option Z)
    (settings settings' : gmap string PyVal) (e : Exn) :
  migrate_settings version settings = Raise e settings' ->
  e = TypeError ∧
  ((∃ z, settings !! "variance_covered" = Some (PyInt z) ∧
         ¬ (- 2 ^ 63 <= z < 2 ^ 64) ∧ settings' = settings) ∨
   (∃ v, settings !! "ncomponents" = Some v ∧ is_Real v = false ∧
         settings' !! "variance_covered" =
           migrated_variance_covered <$> settings !! "variance_covered")) ∧
  (∀ k, k ≠ "variance_covered" -> settings' !! k = settings !! k).
Proof.
  intros H. by apply (migrate_settings_raise version settings _ H).
Qed.

Lemma migrate_settings_raises_only_TypeError_witness :
  let settings' := state_of (migrate_settings None ex_settings_text) in
  TypeError = TypeError ∧
  ((∃ z, ex_settings_text !! "variance_covered" = Some (PyInt z) ∧
         ¬ (- 2 ^ 63 <= z < 2 ^ 64) ∧ settings' = ex_settings_text) ∨
   (∃ v, ex_settings_text !! "ncomponents" = Some v ∧ is_Real v = false ∧
         settings' !! "variance_covered" =
           migrated_variance_covered <$> ex_settings_text !! "variance_covered")) ∧
  (∀ k, k ≠ "variance_covered" -> settings' !! k = ex_settings_text !! k).
Proof.
  apply (migrate_settings_raises_only_TypeError None ex_settings_text
           (state_of (migrate_settings None ex_settings_text)) TypeError).
  vm_compute. reflexivity.
Defined.

(** A dictionary in the current form is left as it is. *)
Lemma migrate_settings_fixed (version : option Z)
    (settings : gmap string PyVal) :
  (∀ v, settings !! "variance_covered" = Some v ->
        (∃ z, v = PyInt z ∧ - 2 ^ 63 <= z < 2 ^ 64) ∨ is_Real v = false) ->
  (∀ v, settings !! "ncomponents" = Some v ->
        is_Real v = true ∧ exceeds v MAX_COMPONENTS = false) ->
  (∀ k, k ∈ removed_keys -> settings !! k = None) ->
  migrate_settings version settings = Ok tt settings.
Proof.
  intros Hvc Hnc Hrm.
  assert (Hdel : delete "auto_update"
                   (delete "address"
                      (delete "batch_size" (delete "decomposition_idx" settings)))
                 = settings).
  { rewrite !delete_id; [done| | | |];
      rewrite ?lookup_delete_ne by done; apply Hrm;
      unfold removed_keys; rewrite !elem_of_cons; auto 10. }
  run_settings.
  destruct (settings !! "variance_covered") as [vc|] eqn:Evc.
  - destruct (Hvc vc eq_refl) as [(z & -> & Hlo & Hhi)|Hreal].
    + run_settings. apply Z.leb_le in Hlo. apply Z.ltb_lt in Hhi.
      rewrite Hlo, Hhi. cbv beta iota zeta delta [andb].
      rewrite (insert_id settings "variance_covered" (PyInt z) Evc).
      destruct (settings !! "ncomponents") as [nc|] eqn:Enc;
        cbv beta iota zeta delta [from_option id].
      * destruct (Hnc nc eq_refl) as [Hr Hex].
        destruct nc; try discriminate Hr;
          cbv beta iota zeta delta [exceeds] in Hex; rewrite Hex;
          cbv beta iota zeta; by rewrite Hdel.
      * change (MAX_COMPONENTS <? 0) with false. cbv beta iota. by rewrite Hdel.
    + destruct vc as [z|b|x|t|]; try discriminate Hreal; run_settings.
      all: destruct (settings !! "ncomponents") as [nc|] eqn:Enc;
        cbv beta iota zeta delta [from_option id].
      all: try (destruct (Hnc nc eq_refl) as [Hr Hex];
                destruct nc; try discriminate Hr;
                cbv beta iota zeta delta [exceeds] in Hex; rewrite Hex;
                cbv beta iota zeta; by rewrite Hdel).
      all: change (MAX_COMPONENTS <? 0) with false; cbv beta iota; by rewrite Hdel.
  - destruct (settings !! "ncomponents") as [nc|] eqn:Enc;
      cbv beta iota zeta delta [from_option id].
    + destruct (Hnc nc eq_refl) as [Hr Hex].
      destruct nc; try discriminate Hr;
        cbv beta iota zeta delta [exceeds] in Hex; rewrite Hex;
        cbv beta iota zeta; by rewrite Hdel.
    + change (MAX_COMPONENTS <? 0) with false. cbv beta iota. by rewrite Hdel.
Qed.

(** What a migration that returns leaves in the dictionary. *)
Lemma migrate_settings_form (version : option Z)
    (settings : gmap string PyVal) (r : Res (gmap string PyVal) unit) :
  migrate_settings version settings = r ->
  ∀ settings', r = Ok tt settings' ->
  (∀ v, settings' !! "variance_covered" = Some v ->
        (∃ z, v = PyInt z) ∨ is_Real v = false) ∧
  (∀ v, settings' !! "ncomponents" = Some v ->
        is_Real v = true ∧ exceeds v MAX_COMPONENTS = false) ∧
  (∀ k, k ∈ removed_keys -> settings' !! k = None).
Proof.
  destruct setting_keys_not_removed as [Hvcin Hncin].
  assert (Hins : ∀ v, <["variance_covered":=v]> settings !! "ncomponents"
                      = settings !! "ncomponents")
    by (intros v; by rewrite lookup_insert_ne).
  intros <-. run_settings.
  destruct (settings !! "variance_covered") as [vc|] eqn:Evc;
    [destruct vc as [z|b|[a| | |]|t|]|]; run_settings.
  all: try (destruct ((- 2 ^ 63 <=? z) && (z <? 2 ^ 64)) eqn:Hfit;
            cbv beta iota zeta; [|by intros ? [=]]).
  all: rewrite ?Hins.
  all: destruct (settings !! "ncomponents") as [nc|] eqn:Enc;
    [destruct nc as [n|c|y|u|]|].
  all: cbv beta iota zeta delta [from_option id].
  all: try (match goal with
            | |- context [if ?b then _ else _] => destruct b eqn:Hb
            end).
  all: try (vm_compute in Hb; discriminate Hb).
  all: intros settings' Hr; try discriminate Hr.
  all: injection Hr as <-.
  all: (split; [|split]); [| |intros k Hk; by apply removed_keys_deleted].
  all: intros v; rewrite other_keys_kept by done;
    rewrite ?lookup_insert_eq, ?lookup_insert_ne by done;
    rewrite ?lookup_insert_eq, ?Evc, ?Enc.
  all: intros [= <-] || intros [=].
  all: try (by left; eexists).
  all: try (by right).
  all: try (split; [done|]; cbv beta iota zeta delta [exceeds]; done).
Qed.

(** X20: migrating a migrated dictionary changes nothing, for any version
    number, provided the integer stored as [variance_covered] fits in 64
    bits (the truncation of a large finite float does not). *)
Theorem migrate_settings_idempotent (version version' : option Z)
    (settings settings' : gmap string PyVal) :
  migrate_settings version settings = Ok tt settings' ->
  (∀ z, settings' !! "variance_covered" = Some (PyInt z) ->
        - 2 ^ 63 <= z < 2 ^ 64) ->
  migrate_settings version' settings' = Ok tt settings'.
Proof.
  intros Hrun Hfit.
  destruct (migrate_settings_form version settings _ Hrun settings' eq_refl)
    as (Hvc & Hnc & Hrm).
  apply migrate_settings_fixed; [|done|done].
  intros v Hv. destruct (Hvc v Hv) as [[z ->]|Hreal]; [|by right].
  left. exists z. split; [done|]. by apply Hfit.
Qed.

Lemma migrate_settings_idempotent_witness :
  migrate_settings (Some 2) (state_of (migrate_settings None ex_settings))
  = Ok tt (state_of (migrate_settings None ex_settings)).
Proof.
  apply (migrate_settings_idempotent None (Some 2) ex_settings
           (state_of (migrate_settings None ex_settings))).
  - vm_compute. reflexivity.
  - intros z H. vm_compute in H. injection H as <-. lia.
Defined.

(** ** The input handler *)

(** Running the input handler: its own steps, then those of the methods. *)
Ltac steps_input :=
  cbv beta iota zeta delta
    [set_data clear_messages information clear_outputs lift in_memory
     upd_widget upd_Error_no_features upd_Error_no_instances upd_Information
     upd_normalize widget Error_no_features Error_no_instances Information] in *;
  steps.

(** The widget seen as its messages and the record of its attributes. *)
Ltac messages_of w :=
  let s := fresh "s" in
  destruct w as [s nofeat_ noinst_ info_]; attributes_of s; steps_input.

(** The handler up to its call of [fit]: the methods it runs before are
    unfolded, [fit] is kept. *)
Ltac before_fit :=
  cbv beta iota zeta delta
    [set_data clear_messages information clear_outputs lift
     upd_widget upd_Error_no_features upd_Error_no_instances upd_Information
     upd_normalize widget Error_no_features Error_no_instances Information
     clear _init_projector clear_plot send
     gets modify state_of mbind mret ST_bind ST_ret fst snd
     upd_data upd_pca upd_transformed upd_variance_ratio upd_cumulative
     upd_pca_projector upd_ncomponents upd_variance_covered
     upd_components_spin upd_plot upd_Warning_trivial_components
     upd_Outputs upd_transform_calls upd_pca_preprocessors
     upd_component upd_preprocessors upd_cutpoint_x upd_ticks
     data _pca _transformed _variance_ratio _cumulative _pca_projector
     _pca_preprocessors ncomponents variance_covered normalize maxp
     axis_labels components_spin plot Warning_trivial_components Outputs
     transform_calls
     n_components random_state component preprocessors
     curves cutpoint_x ticks commit_signals].


(** X21: when the input is removed, [set_data] clears the messages, the
    projection, the cache and the plot, creates a new projector carrying
    the current [ncomponents], and sends nothing: what was sent before
    stays on the outputs. *)
Theorem set_data_None_sends_nothing (PCA_call : PCA -> Table -> PCAModel)
    (PCA_preprocessors : list Preprocessor) (approx_len : Table -> Z)
    (AUTO_DL_LIMIT : Z) (download sample_time_download : Table -> Table)
    (openContext : option Table -> bool -> bool) (w : OWWidget) :
  ∃ w',
    set_data PCA_call PCA_preprocessors approx_len AUTO_DL_LIMIT download
      sample_time_download openContext None w = Ok tt w' ∧
    Outputs (widget w') = Outputs (widget w) ∧
    data (widget w') = None ∧ _pca (widget w') = None ∧
    _transformed (widget w') = None ∧
    curves (plot (widget w')) = None ∧ cutpoint_x (plot (widget w')) = None ∧
    Error_no_features w' = false ∧ Error_no_instances w' = false ∧
    Information w' = None ∧ Warning_trivial_components (widget w') = false ∧
    _pca_projector (widget w') =
      mkPCA MAX_COMPONENTS 0 (ncomponents (widget w)) PCA_preprocessors ∧
    ncomponents (widget w') = ncomponents (widget w) ∧
    variance_covered (widget w') = variance_covered (widget w).
Proof. messages_of w. eexists. repeat split. Qed.

(** X22: a table in memory without features, or with features and without
    rows, is rejected: the error [no_features], respectively
    [no_instances], is shown ([no_features] when both are missing), the
    widget holds no data and no projection, no context is opened, and the
    outputs are cleared with the projector of the previous input, which is
    not created anew. *)
Theorem set_data_rejects_empty_tables (PCA_call : PCA -> Table -> PCAModel)
    (PCA_preprocessors : list Preprocessor) (approx_len : Table -> Z)
    (AUTO_DL_LIMIT : Z) (download sample_time_download : Table -> Table)
    (openContext : option Table -> bool -> bool) (w : OWWidget) (d : Table) :
  is_SqlTable d = false ->
  attributes (domain d) = [] ∨ X d = [] ->
  ∃ w',
    set_data PCA_call PCA_preprocessors approx_len AUTO_DL_LIMIT download
      sample_time_download openContext (Some d) w = Ok tt w' ∧
    Error_no_features w' = bool_decide (attributes (domain d) = []) ∧
    Error_no_instances w' = negb (bool_decide (attributes (domain d) = [])) ∧
    Information w' = None ∧
    data (widget w') = None ∧ _pca (widget w') = None ∧
    _pca_projector (widget w') = _pca_projector (widget w) ∧
    normalize (widget w') = normalize (widget w) ∧
    Outputs (widget w') =
      commit_signals None None (_pca_projector (widget w))
        ++ Outputs (widget w).
Proof.
  intros Hsql Hempty. destruct d as [dom x_ y_ m_ nm sql].
  simpl in Hsql, Hempty. subst sql. messages_of w.
  cbv beta iota zeta delta [is_SqlTable domain X].
  destruct (bool_decide (attributes dom = [])) eqn:Hf; steps_input.
  - eexists. repeat split.
  - destruct Hempty as [Ha| ->]; [by apply bool_decide_eq_false in Hf|].
    rewrite bool_decide_eq_true_2 by done. steps_input.
    eexists. repeat split.
Qed.

Lemma set_data_rejects_empty_tables_witness :
  ∃ w',
    ex_set_data (Some ex_no_features) ex_widget = Ok tt w' ∧
    Error_no_features w' = bool_decide (attributes (domain ex_no_features) = []) ∧
    Error_no_instances w' =
      negb (bool_decide (attributes (domain ex_no_features) = [])) ∧
    Information w' = None ∧
    data (widget w') = None ∧ _pca (widget w') = None ∧
    _pca_projector (widget w') = _pca_projector (widget ex_widget) ∧
    normalize (widget w') = normalize (widget ex_widget) ∧
    Outputs (widget w') =
      commit_signals None None (_pca_projector (widget ex_widget))
        ++ Outputs (widget ex_widget).
Proof.
  apply (set_data_rejects_empty_tables ex_call [] (λ _, 0) 1000 id id (λ _ b, b)
           ex_widget ex_no_features).
  - reflexivity.
  - left. reflexivity.
Defined.

(** X23: whatever the input and whatever [set_data] raised, the data the
    widget holds afterwards is a table in memory with at least one feature
    and one row (so the test for [SqlTable] in [fit] never fails), the
    cache is coherent, a projection is kept only with data, and the
    information line says that the data has been sampled exactly when the
    input is an [SqlTable] whose approximate length is not below
    [AUTO_DL_LIMIT]. *)
Theorem set_data_keeps_tables_in_memory (PCA_call : PCA -> Table -> PCAModel)
    (PCA_preprocessors : list Preprocessor) (approx_len : Table -> Z)
    (AUTO_DL_LIMIT : Z) (download sample_time_download : Table -> Table)
    (openContext : option Table -> bool -> bool) (w : OWWidget)
    (input : option Table) :
  let w' := state_of (set_data PCA_call PCA_preprocessors approx_len
                        AUTO_DL_LIMIT download sample_time_download
                        openContext input w) in
  (∀ d, data (widget w') = Some d ->
        is_SqlTable d = false ∧ attributes (domain d) ≠ [] ∧ X d ≠ []) ∧
  cache_coherent (widget w') ∧
  (is_Some (_pca (widget w')) -> is_Some (data (widget w'))) ∧
  (Information w' = Some "Data has been sampled" ∨ Information w' = None) ∧
  (Information w' = Some "Data has been sampled" ↔
   ∃ d, input = Some d ∧ is_SqlTable d = true ∧ AUTO_DL_LIMIT <= approx_len d).
Proof.
  cbv zeta. destruct w as [s nofeat_ noinst_ info_].
  destruct s as [d_ pca_ tr_ vr_ cum_ proj_ pre_ nc_ vc_ nrm_ maxp_ al_ spin_
                 plot_ warn_ outs_ calls_].
  assert (Hsampled :
    (∃ d, input = Some d ∧ is_SqlTable d = true ∧ AUTO_DL_LIMIT <= approx_len d)
    ↔ ∃ d, input = Some d ∧ is_SqlTable d = true ∧
           (approx_len d <? AUTO_DL_LIMIT) = false).
  { split; intros (d & ? & ? & H); exists d; (split; [done|]); (split; [done|]);
      [by apply Z.ltb_ge | by apply Z.ltb_ge in H]. }
  rewrite Hsampled. clear Hsampled. unfold cache_coherent.
  destruct input as [d|];
    [destruct (is_SqlTable d) eqn:Hsql;
     [destruct (approx_len d <? AUTO_DL_LIMIT) eqn:Hlen|]|].
  all: unfold set_data; rewrite ?Hsql, ?Hlen.
  all: before_fit.
  all: repeat match goal with
       | |- context [bool_decide ?P] => destruct (bool_decide_reflect P)
       end.
  all: before_fit.
  all: try match goal with
       | |- context [fit ?f ?S] =>
           pose proof (fit_frame f S _ eq_refl) as (Hd & _);
           pose proof (fit_cache_coherent f S _ eq_refl) as Hcache;
           pose proof (fit_projection_has_data f S _ eq_refl) as Hhas;
           unfold cache_coherent in Hcache;
           destruct (fit f S) as [[] s'|e s'];
           destruct s' as [d1 pca1 tr1 vr1 cum1 proj1 pre1 nc1 vc1 nrm1 maxp1
                           al1 spin1 plot1 warn1 outs1 calls1];
           cbn [state_of data _pca _transformed] in Hd, Hcache, Hhas
       end.
  all: before_fit.
  all: split; [intros d0 Hd0; simplify_eq; by repeat split|].
  all: split; [done|].
  all: split; [done|].
  all: split; [by (left + right)|].
  all: split; [try done|intros (d0 & Hin & Hs & Hl); simplify_eq; try done; congruence].
  all: try (intros _; by exists d).
Qed.


